(** * ts-option-type: the [Option<T>] abstraction of [src/index.ts]

    A shallow embedding of the module's two object literals ([None] and the
    object returned by [Some(value)]) and of its five conversion utilities,
    followed by the properties of the combinator contract.

    JavaScript features the module relies on, and how they are rendered:
    - values: the type [Value]; [null] and [undefined] are distinct values;
    - objects: an [Option] object is rendered by its allocation identity and
      the [value] captured by its methods.  All members are [readonly], and
      the module never assigns to them, so the captured value is immutable;
    - callbacks: a consumer callback may have any effect on the consumer's
      world, may allocate further [Option] objects and may [throw]; every
      application of a callback is recorded in the invocation log [calls];
    - exceptions: a computation ends in [Ok a] or in [Throw e]. *)

From Stdlib Require Import ZArith String List Bool.
Import ListNotations.

Module Index.

(** ** Values and objects *)

(** [NoneObj] and [SomeObj] are the two shapes of object that have the
    type [Option<T>]: an object with the members of the [None] literal, and
    an object built by [Some(value)].  The first field is the identity of
    the object, which is what [===] and jest's [toBe] compare. *)
Inductive Value : Type :=
| VUndefined
| VNull
| VBool (b : bool)
| VNum (n : Z)
| VStr (s : string)
| VOption (o : Option)
with Option : Type :=
| NoneObj (id : nat)
| SomeObj (id : nat) (value : Value).

Definition object_id (o : Option) : nat :=
  match o with
  | NoneObj id => id
  | SomeObj id _ => id
  end.

(** Reference equality of two objects. *)
Definition same_object (a b : Option) : bool :=
  match a, b with
  | NoneObj i, NoneObj j => Nat.eqb i j
  | SomeObj i _, SomeObj j _ => Nat.eqb i j
  | _, _ => false
  end.

(** The strict equality operator [===]. *)
Definition strict_eq (a b : Value) : bool :=
  match a, b with
  | VUndefined, VUndefined => true
  | VNull, VNull => true
  | VBool x, VBool y => Bool.eqb x y
  | VNum x, VNum y => Z.eqb x y
  | VStr x, VStr y => String.eqb x y
  | VOption x, VOption y => same_object x y
  | _, _ => false
  end.

(** One application of a consumer callback: which function, which
    arguments. *)
Record Invocation : Type := mkInvocation {
  inv_fn : nat;
  inv_args : list Value
}.

(** ** Computations *)

Inductive Result (A : Type) : Type :=
| Ok (a : A)
| Throw (e : Value).

Arguments Ok {A} a.
Arguments Throw {A} e.

Section Runtime.

(** The consumer's own mutable world (captured variables, globals). *)
Context {W : Type}.

Record State : Type := mkState {
  world : W;
  next_id : nat;
  calls : list Invocation
}.

Definition M (A : Type) : Type := State -> Result A * State.

Definition ret {A : Type} (a : A) : M A := fun s => (Ok a, s).

Definition throw {A : Type} (e : Value) : M A := fun s => (Throw e, s).

Definition bind {A B : Type} (m : M A) (k : A -> M B) : M B :=
  fun s =>
    match m s with
    | (Ok a, s') => k a s'
    | (Throw e, s') => (Throw e, s')
    end.

(** A function of one argument and a function of no argument, as passed by
    the consumer. *)
Record Fn (A : Type) : Type := mkFn {
  fn_id : nat;
  fn_body : Value -> M A
}.

Record Thunk (A : Type) : Type := mkThunk {
  thunk_id : nat;
  thunk_body : M A
}.

Arguments fn_id {A} f.
Arguments fn_body {A} f.
Arguments thunk_id {A} t.
Arguments thunk_body {A} t.

Definition record_call (f : nat) (args : list Value) (s : State) : State :=
  mkState (world s) (next_id s) (calls s ++ [mkInvocation f args]).

(** [fn(value)] *)
Definition call {A : Type} (fn : Fn A) (value : Value) : M A :=
  fun s => fn_body fn value (record_call (fn_id fn) [value] s).

(** [fn()] *)
Definition call0 {A : Type} (fn : Thunk A) : M A :=
  fun s => thunk_body fn (record_call (thunk_id fn) [] s).

(** ** [export const None] *)

(** The identity of the one object literal the module creates at load time;
    identities handed out by [Some] start after it. *)
Definition None_id : nat := 0.

Definition None : Option := NoneObj None_id.

Definition initial_state (w : W) : State := mkState w (S None_id) [].

Section None_literal.

Context {U : Type}.

Definition None_match (_ : Fn U) (none : Thunk U) : M U :=
  call0 none.

Definition None_getValueOrDefault (defaultValue : Value) : M Value :=
  ret defaultValue.

Definition None_getValueOrCompute (computeFn : Thunk Value) : M Value :=
  call0 computeFn.

Definition None_mapOrDefault (_ : Fn U) (defaultValue : U) : M U :=
  ret defaultValue.

Definition None_mapOrCompute (_ : Fn U) (defaultComputeFn : Thunk U) : M U :=
  call0 defaultComputeFn.

Definition None_map (_ : Fn Value) : M Option :=
  ret None.

Definition None_and (_ : Option) : M Option :=
  ret None.

Definition None_andThen (_ : Fn Option) : M Option :=
  ret None.

Definition None_or (option : Option) : M Option :=
  ret option.

Definition None_orElse (fn : Thunk Option) : M Option :=
  call0 fn.

Definition None_filter (_ : Fn bool) : M Option :=
  ret None.

Definition None_isNone : bool := true.

Definition None_isSome : bool := false.

End None_literal.

(** ** [export function Some<T>(value: T)] *)

(** A call of [Some] evaluates one object literal: a new object, whose
    methods close over [value].  The methods follow, in [Some_literal]. *)
Definition Some (value : Value) : M Option :=
  fun s => (Ok (SomeObj (next_id s) value),
            mkState (world s) (S (next_id s)) (calls s)).

Section Some_literal.

Context {U : Type}.

(** The parameter captured by the methods, and the receiver of a method
    call [o.m(...)]. *)
Variable value : Value.
Variable this : Option.

Definition Some_match (some : Fn U) (_ : Thunk U) : M U :=
  call some value.

Definition Some_getValueOrDefault (_ : Value) : M Value :=
  ret value.

Definition Some_getValueOrCompute (_ : Thunk Value) : M Value :=
  ret value.

Definition Some_mapOrDefault (map : Fn U) (_ : U) : M U :=
  call map value.

Definition Some_mapOrCompute (map : Fn U) (_ : Thunk U) : M U :=
  call map value.

Definition Some_map (fn : Fn Value) : M Option :=
  bind (call fn value) Some.

Definition Some_and (option : Option) : M Option :=
  ret option.

Definition Some_andThen (fn : Fn Option) : M Option :=
  call fn value.

Definition Some_or (_ : Option) : M Option :=
  ret this.

Definition Some_orElse (_ : Thunk Option) : M Option :=
  ret this.

Definition Some_filter (fn : Fn bool) : M Option :=
  bind (call fn value) (fun keep => if keep then ret this else ret None).

Definition Some_isNone : bool := false.

Definition Some_isSome : bool := true.

End Some_literal.

(** ** Member access on a receiver of type [Option<T>] *)

(** [this.match(some, none)], and so on: the member is looked up on the
    receiver and applied with the receiver as [this]. *)
Definition Option_match {U : Type} (this : Option)
    (some : Fn U) (none : Thunk U) : M U :=
  match this with
  | NoneObj _ => None_match some none
  | SomeObj _ value => Some_match value some none
  end.

Definition Option_getValueOrDefault (this : Option)
    (defaultValue : Value) : M Value :=
  match this with
  | NoneObj _ => None_getValueOrDefault defaultValue
  | SomeObj _ value => Some_getValueOrDefault value defaultValue
  end.

Definition Option_getValueOrCompute (this : Option)
    (computeFn : Thunk Value) : M Value :=
  match this with
  | NoneObj _ => None_getValueOrCompute computeFn
  | SomeObj _ value => Some_getValueOrCompute value computeFn
  end.

Definition Option_mapOrDefault {U : Type} (this : Option)
    (map : Fn U) (defaultValue : U) : M U :=
  match this with
  | NoneObj _ => None_mapOrDefault map defaultValue
  | SomeObj _ value => Some_mapOrDefault value map defaultValue
  end.

Definition Option_mapOrCompute {U : Type} (this : Option)
    (map : Fn U) (defaultComputeFn : Thunk U) : M U :=
  match this with
  | NoneObj _ => None_mapOrCompute map defaultComputeFn
  | SomeObj _ value => Some_mapOrCompute value map defaultComputeFn
  end.

Definition Option_map (this : Option) (fn : Fn Value) : M Option :=
  match this with
  | NoneObj _ => None_map fn
  | SomeObj _ value => Some_map value fn
  end.

Definition Option_and (this : Option) (option : Option) : M Option :=
  match this with
  | NoneObj _ => None_and option
  | SomeObj _ _ => Some_and option
  end.

Definition Option_andThen (this : Option) (fn : Fn Option) : M Option :=
  match this with
  | NoneObj _ => None_andThen fn
  | SomeObj _ value => Some_andThen value fn
  end.

Definition Option_or (this : Option) (option : Option) : M Option :=
  match this with
  | NoneObj _ => None_or option
  | SomeObj _ _ => Some_or this option
  end.

Definition Option_orElse (this : Option) (fn : Thunk Option) : M Option :=
  match this with
  | NoneObj _ => None_orElse fn
  | SomeObj _ _ => Some_orElse this fn
  end.

Definition Option_filter (this : Option) (fn : Fn bool) : M Option :=
  match this with
  | NoneObj _ => None_filter fn
  | SomeObj _ value => Some_filter value this fn
  end.

Definition Option_isNone (this : Option) : bool :=
  match this with
  | NoneObj _ => None_isNone
  | SomeObj _ _ => Some_isNone
  end.

Definition Option_isSome (this : Option) : bool :=
  match this with
  | NoneObj _ => None_isSome
  | SomeObj _ _ => Some_isSome
  end.

(** ** Conversion utilities *)

Definition fromValue (value : Value) : M Option :=
  if strict_eq value VNull || strict_eq value VUndefined
  then ret None
  else Some value.

Definition fromValueConditional (value : Value) (isNone : Fn bool)
    : M Option :=
  bind (call isNone value)
       (fun absent => if absent then ret None else Some value).

Definition fromNullable (value : Value) : M Option :=
  if strict_eq value VNull then ret None else Some value.

Definition fromUndefinable (value : Value) : M Option :=
  if strict_eq value VUndefined then ret None else Some value.

(** The call evaluates one arrow function and returns it; the predicate is
    applied when the returned function is. *)
Definition createOptionFactory (isNonePredicate : Fn bool)
    : M (Value -> M Option) :=
  ret (fun value =>
         bind (call isNonePredicate value)
              (fun absent => if absent then ret None else Some value)).

(** ** Chains of calls, as a consumer writes them *)

(** [o.andThen(f1).andThen(f2)...] *)
Fixpoint andThen_chain (o : Option) (fns : list (Fn Option)) : M Option :=
  match fns with
  | [] => ret o
  | fn :: rest => bind (Option_andThen o fn) (fun r => andThen_chain r rest)
  end.

End Runtime.

Arguments State W : clear implicits.
Arguments M W A : clear implicits.
Arguments Fn W A : clear implicits.
Arguments Thunk W A : clear implicits.
Arguments mkFn {W A} fn_id fn_body.
Arguments mkThunk {W A} thunk_id thunk_body.
Arguments fn_id {W A} f.
Arguments fn_body {W A} f.
Arguments thunk_id {W A} t.
Arguments thunk_body {W A} t.

End Index.

Import Index.

(** * The earlier revision of the module, [src/unnamed/part_002]

    The same interface, with [None] built by a private function [_none]
    whose methods return [this], and with [andThen] and [orElse] taking a
    function of no argument whose result they wrap in [Some]. *)

Module Legacy.

Section Runtime.

Context {W : Type}.

(** [export function Some<T>(value: T)]: one new object per call. *)
Definition Some (value : Value) : M W Option :=
  fun s => (Ok (SomeObj (next_id s) value),
            mkState (world s) (S (next_id s)) (calls s)).

(** [function _none<T>()]: one new object per call.  The module calls it
    once, when it is loaded. *)
Definition _none : M W Option :=
  fun s => (Ok (NoneObj (next_id s)),
            mkState (world s) (S (next_id s)) (calls s)).

(** The state in which the module is loaded. *)
Definition load_state (w : W) : State W := mkState w None_id [].

(** [export const None = _none<any>()] *)
Definition None : Option := NoneObj None_id.

Section none_literal.

Context {U : Type}.

Variable this : Option.

Definition none_match (_ : Fn W U) (none : Thunk W U) : M W U :=
  call0 none.

Definition none_getValueOrDefault (defaultValue : Value) : M W Value :=
  ret defaultValue.

Definition none_getValueOrCompute (fn : Thunk W Value) : M W Value :=
  call0 fn.

Definition none_mapOrDefault (_ : Fn W U) (defaultValue : U) : M W U :=
  ret defaultValue.

Definition none_mapOrCompute (_ : Fn W U) (defaultCompute : Thunk W U)
    : M W U :=
  call0 defaultCompute.

Definition none_map (_ : Fn W Value) : M W Option :=
  ret this.

Definition none_and (_ : Option) : M W Option :=
  ret this.

Definition none_andThen (_ : Thunk W Value) : M W Option :=
  ret this.

Definition none_or (option : Option) : M W Option :=
  ret option.

Definition none_orElse (fn : Thunk W Value) : M W Option :=
  bind (call0 fn) Some.

Definition none_filter (_ : Fn W bool) : M W Option :=
  ret this.

Definition none_isNone : bool := true.

Definition none_isSome : bool := false.

End none_literal.

Section Some_literal.

Context {U : Type}.

Variable value : Value.
Variable this : Option.

Definition Some_match (some : Fn W U) (_ : Thunk W U) : M W U :=
  call some value.

Definition Some_getValueOrDefault (_ : Value) : M W Value :=
  ret value.

Definition Some_getValueOrCompute (_ : Thunk W Value) : M W Value :=
  ret value.

Definition Some_mapOrDefault (map : Fn W U) (_ : U) : M W U :=
  call map value.

Definition Some_mapOrCompute (map : Fn W U) (_ : Thunk W U) : M W U :=
  call map value.

Definition Some_map (fn : Fn W Value) : M W Option :=
  bind (call fn value) Some.

Definition Some_and (option : Option) : M W Option :=
  ret option.

Definition Some_andThen (computeFn : Thunk W Value) : M W Option :=
  bind (call0 computeFn) Some.

Definition Some_or (_ : Option) : M W Option :=
  ret this.

Definition Some_orElse (_ : Thunk W Value) : M W Option :=
  ret this.

Definition Some_filter (filterFn : Fn W bool) : M W Option :=
  bind (call filterFn value)
       (fun keep => if keep then ret this else ret None).

Definition Some_isNone : bool := false.

Definition Some_isSome : bool := true.

End Some_literal.

(** Member access on a receiver. *)
Definition Option_match {U : Type} (this : Option)
    (some : Fn W U) (none : Thunk W U) : M W U :=
  match this with
  | NoneObj _ => none_match some none
  | SomeObj _ value => Some_match value some none
  end.

Definition Option_getValueOrDefault (this : Option)
    (defaultValue : Value) : M W Value :=
  match this with
  | NoneObj _ => none_getValueOrDefault defaultValue
  | SomeObj _ value => Some_getValueOrDefault value defaultValue
  end.

Definition Option_getValueOrCompute (this : Option)
    (fn : Thunk W Value) : M W Value :=
  match this with
  | NoneObj _ => none_getValueOrCompute fn
  | SomeObj _ value => Some_getValueOrCompute value fn
  end.

Definition Option_mapOrDefault {U : Type} (this : Option)
    (map : Fn W U) (defaultValue : U) : M W U :=
  match this with
  | NoneObj _ => none_mapOrDefault map defaultValue
  | SomeObj _ value => Some_mapOrDefault value map defaultValue
  end.

Definition Option_mapOrCompute {U : Type} (this : Option)
    (map : Fn W U) (defaultCompute : Thunk W U) : M W U :=
  match this with
  | NoneObj _ => none_mapOrCompute map defaultCompute
  | SomeObj _ value => Some_mapOrCompute value map defaultCompute
  end.

Definition Option_map (this : Option) (fn : Fn W Value) : M W Option :=
  match this with
  | NoneObj _ => none_map this fn
  | SomeObj _ value => Some_map value fn
  end.

Definition Option_and (this : Option) (option : Option) : M W Option :=
  match this with
  | NoneObj _ => none_and this option
  | SomeObj _ _ => Some_and option
  end.

Definition Option_andThen (this : Option) (computeFn : Thunk W Value)
    : M W Option :=
  match this with
  | NoneObj _ => none_andThen this computeFn
  | SomeObj _ _ => Some_andThen computeFn
  end.

Definition Option_or (this : Option) (option : Option) : M W Option :=
  match this with
  | NoneObj _ => none_or option
  | SomeObj _ _ => Some_or this option
  end.

Definition Option_orElse (this : Option) (fn : Thunk W Value) : M W Option :=
  match this with
  | NoneObj _ => none_orElse fn
  | SomeObj _ _ => Some_orElse this fn
  end.

Definition Option_filter (this : Option) (filterFn : Fn W bool)
    : M W Option :=
  match this with
  | NoneObj _ => none_filter this filterFn
  | SomeObj _ value => Some_filter value this filterFn
  end.

Definition Option_isNone (this : Option) : bool :=
  match this with
  | NoneObj _ => none_isNone
  | SomeObj _ _ => Some_isNone
  end.

Definition Option_isSome (this : Option) : bool :=
  match this with
  | NoneObj _ => none_isSome
  | SomeObj _ _ => Some_isSome
  end.

End Runtime.

End Legacy.

(** * Consumer code used in the examples

    The consumer's world is a counter of type [nat]. *)

Module Consumer.

Definition s0 : State nat := initial_state 0.

(** [const five = Some(5)], evaluated first, and the state after it. *)
Definition five : Option := SomeObj 1 (VNum 5).

Definition s1 : State nat := mkState 0 2 [].

(** [x => x * 2] *)
Definition double : Fn nat Value :=
  mkFn 1 (fun x => match x with
                   | VNum n => ret (VNum (n * 2))
                   | _ => ret VUndefined
                   end).

(** [_ => null] *)
Definition to_null : Fn nat Value := mkFn 2 (fun _ => ret VNull).

(** [x => x < 0] *)
Definition negative : Fn nat bool :=
  mkFn 3 (fun x => match x with
                   | VNum n => ret (Z.ltb n 0)
                   | _ => ret false
                   end).

(** [x => x > 5] *)
Definition above_five : Fn nat bool :=
  mkFn 4 (fun x => match x with
                   | VNum n => ret (Z.ltb 5 n)
                   | _ => ret false
                   end).

(** [() => { count++; return 10 }] *)
Definition counting_ten : Thunk nat Value :=
  mkThunk 5 (fun s => (Ok (VNum 10),
                       mkState (S (world s)) (next_id s) (calls s))).

(** [_ => { throw "boom" }] *)
Definition boom : Fn nat Value := mkFn 6 (fun _ => throw (VStr "boom")).

(** [_ => None] *)
Definition to_None : Fn nat Option := mkFn 7 (fun _ => ret None).

(** [x => Some(x)] *)
Definition to_Some : Fn nat Option := mkFn 8 (fun x => Some x).

(** [() => { count++; return Some(10) }] *)
Definition counting_Some_ten : Thunk nat Option :=
  mkThunk 9 (fun s => Some (VNum 10)
                        (mkState (S (world s)) (next_id s) (calls s))).

(** [_ => { throw "pred" }] *)
Definition boom_pred : Fn nat bool := mkFn 10 (fun _ => throw (VStr "pred")).

(** [Some(5).map(_ => null)] *)
Definition wrap_then_null : M nat Option :=
  bind (Some (VNum 5)) (fun o => Option_map o to_null).

(** [createOptionFactory(x => x < 0)(null)] *)
Definition factory_on_null : M nat Option :=
  bind (createOptionFactory negative) (fun factory => factory VNull).

(** [fromValue(4).map(x => x * 2).filter(x => x > 5)] *)
Definition end_to_end : M nat Option :=
  bind (fromValue (VNum 4))
       (fun a => bind (Option_map a double)
                      (fun b => Option_filter b above_five)).

(** What [double], [above_five] and [negative] compute. *)
Definition times_two (x : Value) : Value :=
  match x with
  | VNum n => VNum (n * 2)
  | _ => VUndefined
  end.

Definition is_above_five (x : Value) : bool :=
  match x with
  | VNum n => Z.ltb 5 n
  | _ => false
  end.

Definition is_negative (x : Value) : bool :=
  match x with
  | VNum n => Z.ltb n 0
  | _ => false
  end.

(** [() => 10] and [() => None] *)
Definition ten : Thunk nat Value := mkThunk 11 (ret (VNum 10)).

Definition none_thunk : Thunk nat Option := mkThunk 12 (ret None).

End Consumer.

(** * Vocabulary of the statements *)

Section Vocabulary.

Context {W : Type}.

(** The computation returns normally from every state. *)
Definition never_raises {A : Type} (m : M W A) : Prop :=
  forall s, exists a s', m s = (Ok a, s').

(** The body of [f] ended in [throw e], leaving the state [s']. *)
Definition fault_of_fn {A : Type} (f : Fn W A) (e : Value) (s' : State W)
    : Prop :=
  exists x s1, fn_body f x s1 = (Throw e, s').

Definition fault_of_thunk {A : Type} (t : Thunk W A) (e : Value)
    (s' : State W) : Prop :=
  exists s1, thunk_body t s1 = (Throw e, s').

(** Whenever [m] raises, the exception and the final state are those of a
    fault described by [origin]. *)
Definition faults_only_from {A : Type} (m : M W A)
    (origin : Value -> State W -> Prop) : Prop :=
  forall s e s', m s = (Throw e, s') -> origin e s'.

(** The wording of the specification for [createOptionFactory]:
    [fromValueConditional] partially applied to a fixed predicate. *)
Definition fromValueConditional_with (isAbsentPredicate : Fn W bool)
    : Value -> M W Option :=
  fun value => fromValueConditional value isAbsentPredicate.

(** Neither [null] nor [undefined]. *)
Definition defined (v : Value) : Prop := v <> VNull /\ v <> VUndefined.

(** The invariant under discussion for the payload of an object: what a
    present instance holds is neither [null] nor [undefined]. *)
Definition payload_defined (o : Option) : Prop :=
  match o with
  | NoneObj _ => True
  | SomeObj _ value => defined value
  end.

(** The state after [Some] has allocated one object in [s]. *)
Definition allocated (s : State W) : State W :=
  mkState (world s) (S (next_id s)) (calls s).

End Vocabulary.

(** * Consumer functions built from the module's own operations *)

Section Arrows.

Context {W : Type}.

(** Two objects have the same variant and, when present, hold the same
    value; their identities may differ. *)
Definition same_content (a b : Option) : Prop :=
  match a, b with
  | NoneObj _, NoneObj _ => True
  | SomeObj _ x, SomeObj _ y => x = y
  | _, _ => False
  end.

(** An object the module itself can have produced: the constant [None], or
    an object built by [Some]. *)
Definition module_object (o : Option) : Prop :=
  match o with
  | NoneObj id => id = None_id
  | SomeObj _ _ => True
  end.

(** A consumer function that, when it returns, returns an object of the
    module. *)
Definition returns_module_objects (g : Fn W Option) : Prop :=
  forall x s r s', fn_body g x s = (Ok r, s') -> module_object r.

Definition thunk_returns_module_objects (h : Thunk W Option) : Prop :=
  forall s r s', thunk_body h s = (Ok r, s') -> module_object r.

(** [public_result r]: the object [r] is the constant [None], or is
    returned by one of the operations of the module that return an option,
    applied to objects of the module and to functions that return objects
    of the module. *)
Inductive public_result (r : Option) : Prop :=
| result_None :
    r = None -> public_result r
| result_Some v (s s' : State W) :
    Some v s = (Ok r, s') -> public_result r
| result_map this (f : Fn W Value) s s' :
    module_object this ->
    Option_map this f s = (Ok r, s') -> public_result r
| result_and this o (s s' : State W) :
    module_object this -> module_object o ->
    Option_and this o s = (Ok r, s') -> public_result r
| result_andThen this (g : Fn W Option) s s' :
    module_object this -> returns_module_objects g ->
    Option_andThen this g s = (Ok r, s') -> public_result r
| result_or this o (s s' : State W) :
    module_object this -> module_object o ->
    Option_or this o s = (Ok r, s') -> public_result r
| result_orElse this (h : Thunk W Option) s s' :
    module_object this -> thunk_returns_module_objects h ->
    Option_orElse this h s = (Ok r, s') -> public_result r
| result_filter this (p : Fn W bool) s s' :
    module_object this ->
    Option_filter this p s = (Ok r, s') -> public_result r
| result_fromValue v (s s' : State W) :
    fromValue v s = (Ok r, s') -> public_result r
| result_fromValueConditional v (p : Fn W bool) s s' :
    fromValueConditional v p s = (Ok r, s') -> public_result r
| result_fromNullable v (s s' : State W) :
    fromNullable v s = (Ok r, s') -> public_result r
| result_fromUndefinable v (s s' : State W) :
    fromUndefinable v s = (Ok r, s') -> public_result r
| result_factory (p : Fn W bool) factory s0 s1 v (s s' : State W) :
    createOptionFactory p s0 = (Ok factory, s1) ->
    factory v s = (Ok r, s') -> public_result r.

(** The values held by an object: one for [Some], none for [None]. *)
Definition held (o : Option) : list Value :=
  match o with
  | NoneObj _ => []
  | SomeObj _ value => [value]
  end.

(** [f] computes the mathematical function [F] and has no effect. *)
Definition pure_fn {A : Type} (f : Fn W A) (F : Value -> A) : Prop :=
  forall x s, fn_body f x s = (Ok (F x), s).

(** A body that leaves the state as it found it, whatever it returns or
    throws. *)
Definition quiet_fn {A : Type} (f : Fn W A) : Prop :=
  forall x s, snd (fn_body f x s) = s.

Definition quiet_thunk {A : Type} (t : Thunk W A) : Prop :=
  forall s, snd (thunk_body t s) = s.

(** [x => x] *)
Definition identity_fn (k : nat) : Fn W Value :=
  mkFn k (fun x => ret x).

(** [x => g(f(x))] *)
Definition compose_fn (k : nat) (f g : Fn W Value) : Fn W Value :=
  mkFn k (fun x => bind (call f x) (call g)).

(** [x => Some(x)] *)
Definition Some_fn (k : nat) : Fn W Option :=
  mkFn k Some.

(** [x => f(x).andThen(g)] *)
Definition andThen_fn (k : nat) (f g : Fn W Option) : Fn W Option :=
  mkFn k (fun x => bind (call f x) (fun r => Option_andThen r g)).

(** [_ => a] *)
Definition const_fn {A : Type} (k : nat) (a : A) : Fn W A :=
  mkFn k (fun _ => ret a).

(** [() => a] *)
Definition const_thunk {A : Type} (k : nat) (a : A) : Thunk W A :=
  mkThunk k (ret a).

(** [x => p(x) && q(x)] *)
Definition both_fn (k : nat) (p q : Fn W bool) : Fn W bool :=
  mkFn k (fun x => bind (call p x)
                        (fun b => if b then call q x else ret false)).

(** [x => x === null || x === undefined] *)
Definition is_nullish_fn (k : nat) : Fn W bool :=
  mkFn k (fun x => ret (strict_eq x VNull || strict_eq x VUndefined)).

(** [x => x === null] *)
Definition is_null_fn (k : nat) : Fn W bool :=
  mkFn k (fun x => ret (strict_eq x VNull)).

(** [x => x === undefined] *)
Definition is_undefined_fn (k : nat) : Fn W bool :=
  mkFn k (fun x => ret (strict_eq x VUndefined)).

(** [o.map(f).map(g)] *)
Definition map_map (o : Option) (f g : Fn W Value) : M W Option :=
  bind (Option_map o f) (fun r => Option_map r g).

(** [o.filter(p).filter(q)] *)
Definition filter_filter (o : Option) (p q : Fn W bool) : M W Option :=
  bind (Option_filter o p) (fun r => Option_filter r q).

(** [a === b], for two expressions that evaluate to objects. *)
Definition identical (ma mb : M W Option) : M W bool :=
  bind ma (fun a => bind mb (fun b => ret (same_object a b))).

End Arrows.

(** * Properties *)

Section Properties.

Context {W : Type}.

Implicit Types (s : State W) (v d u : Value) (id : nat) (o this : Option).

(** ** Strict equality with the two absence sentinels *)

Lemma strict_eq_null v : strict_eq v VNull = true <-> v = VNull.
Proof.
  destruct v; simpl; split; intro H; try reflexivity; discriminate H.
Qed.

Lemma strict_eq_undefined v :
  strict_eq v VUndefined = true <-> v = VUndefined.
Proof.
  destruct v; simpl; split; intro H; try reflexivity; discriminate H.
Qed.

(** ** The monad *)

Lemma bind_Ok {A B : Type} (m : M W A) (k : A -> M W B) s a s' :
  m s = (Ok a, s') -> bind m k s = k a s'.
Proof. unfold bind. intros ->. reflexivity. Qed.

Lemma bind_Throw {A B : Type} (m : M W A) (k : A -> M W B) s e s' :
  m s = (Throw e, s') -> bind m k s = (Throw e, s').
Proof. unfold bind. intros ->. reflexivity. Qed.

Lemma bind_Throw_inv {A B : Type} (m : M W A) (k : A -> M W B) s e s' :
  bind m k s = (Throw e, s') ->
  m s = (Throw e, s') \/ exists a s1, m s = (Ok a, s1) /\ k a s1 = (Throw e, s').
Proof.
  unfold bind. destruct (m s) as [[a|e1] s1]; intro H.
  - right. exists a, s1. split; [reflexivity | exact H].
  - left. injection H as -> ->. reflexivity.
Qed.

Lemma call_fault {A : Type} (f : Fn W A) v s e s' :
  call f v s = (Throw e, s') -> fault_of_fn f e s'.
Proof. unfold call. intro H. eexists _, _. exact H. Qed.

Lemma call0_fault {A : Type} (t : Thunk W A) s e s' :
  call0 t s = (Throw e, s') -> fault_of_thunk t e s'.
Proof. unfold call0. intro H. eexists. exact H. Qed.

Lemma Some_returns v s : Some v s = (Ok (SomeObj (next_id s) v), allocated s).
Proof. reflexivity. Qed.

(** ** Chains of [andThen] *)

Lemma andThen_chain_absent (fns : list (Fn W Option)) id s :
  andThen_chain (NoneObj id) fns s = (Ok (match fns with
                                          | [] => NoneObj id
                                          | _ :: _ => None
                                          end), s).
Proof.
  revert id. induction fns as [|fn rest IH]; intro id; simpl.
  - reflexivity.
  - unfold bind, None_andThen, ret, None. rewrite (IH None_id).
    destruct rest; reflexivity.
Qed.

Lemma andThen_chain_None (fns : list (Fn W Option)) s :
  andThen_chain None fns s = (Ok None, s).
Proof.
  unfold None. rewrite andThen_chain_absent. destruct fns; reflexivity.
Qed.

Lemma andThen_chain_app (fns1 fns2 : list (Fn W Option)) o s :
  andThen_chain o (fns1 ++ fns2) s =
  bind (andThen_chain o fns1) (fun r => andThen_chain r fns2) s.
Proof.
  revert o s. induction fns1 as [|fn rest IH]; intros o s; simpl.
  - reflexivity.
  - unfold bind at 1 2 3.
    destruct (Option_andThen o fn s) as [[r|e] s1].
    + rewrite IH. reflexivity.
    + reflexivity.
Qed.

(** ** The combinators *)

(** C1. [map] on a present instance applies the transform to the held value
    exactly once and wraps the result in a new present instance, that is
    [Some(v).map(f)] is [Some(f(v))]; [map] on the absent instance returns
    [None] in the unchanged state, so the transform is never invoked (the
    invocation log is the one before the call). *)
Theorem map_present_absent id v (f : Fn W Value) s :
  Option_map (SomeObj id v) f = bind (call f v) Some
  /\ (forall u s', call f v s = (Ok u, s') ->
        Option_map (SomeObj id v) f s
        = (Ok (SomeObj (next_id s') u), allocated s'))
  /\ Option_map None f s = (Ok None, s)
  /\ calls (snd (Option_map None f s)) = calls s.
Proof.
  repeat split.
  intros u s' Hf. simpl. unfold Some_map.
  rewrite (bind_Ok _ _ _ _ _ Hf). apply Some_returns.
Qed.

(** C3. [andThen] is bind: on a present instance it is the callback applied
    to the held value, on the absent instance it is [None] with the callback
    never invoked; a chain of [andThen] that has reached [None] stays there
    in the same state, whatever callbacks follow.  [and] returns its
    argument on a present receiver, whatever the held value, and [None] on
    the absent one. *)
Theorem andThen_and_contract id v (f : Fn W Option)
    (fns1 fns2 : list (Fn W Option)) o s :
  Option_andThen (SomeObj id v) f = call f v
  /\ Option_andThen None f s = (Ok None, s)
  /\ andThen_chain None fns2 s = (Ok None, s)
  /\ (forall s', andThen_chain o fns1 s = (Ok None, s') ->
        andThen_chain o (fns1 ++ fns2) s = (Ok None, s'))
  /\ Option_and (SomeObj id v) o s = (Ok o, s)
  /\ Option_and None o s = (Ok None, s).
Proof.
  repeat split.
  - apply andThen_chain_None.
  - intros s' H. rewrite andThen_chain_app, (bind_Ok _ _ _ _ _ H).
    apply andThen_chain_None.
Qed.

(** C4. On a present receiver [or] and [orElse] return the receiver itself
    in the unchanged state (the callback of [orElse] is not invoked); on the
    absent receiver [or] returns its argument and [orElse] is the call of
    its callback. *)
Theorem or_orElse_contract id v (X : Option) (f : Thunk W Option) s :
  Option_or (SomeObj id v) X s = (Ok (SomeObj id v), s)
  /\ Option_orElse (SomeObj id v) f s = (Ok (SomeObj id v), s)
  /\ calls (snd (Option_orElse (SomeObj id v) f s)) = calls s
  /\ Option_or None X s = (Ok X, s)
  /\ Option_orElse None f = call0 f.
Proof. repeat split. Qed.

(** C5. [filter] on a present instance applies the predicate to the held
    value and returns the receiver itself when it holds and [None] when it
    does not; on the absent instance it returns [None] in the unchanged
    state, the predicate not being invoked. *)
Theorem filter_contract id v (pred : Fn W bool) s :
  (forall s', call pred v s = (Ok true, s') ->
     Option_filter (SomeObj id v) pred s = (Ok (SomeObj id v), s'))
  /\ (forall s', call pred v s = (Ok false, s') ->
        Option_filter (SomeObj id v) pred s = (Ok None, s'))
  /\ Option_filter None pred s = (Ok None, s)
  /\ calls (snd (Option_filter None pred s)) = calls s.
Proof.
  repeat split; intros s' H; simpl; unfold Some_filter;
    rewrite (bind_Ok _ _ _ _ _ H); reflexivity.
Qed.

(** C6. The four defaulting operations: on a present instance the held
    value, or the transform applied to it, with the default ignored and the
    compute callback not invoked; on the absent instance the default, or the
    call of the compute callback, with the transform not invoked. *)
Theorem defaulting_contract {U : Type} id v d (du : U)
    (compute : Thunk W Value) (transform : Fn W U) (computeU : Thunk W U) s :
  Option_getValueOrDefault (SomeObj id v) d s = (Ok v, s)
  /\ Option_getValueOrDefault None d s = (Ok d, s)
  /\ Option_getValueOrCompute (SomeObj id v) compute s = (Ok v, s)
  /\ Option_getValueOrCompute None compute = call0 compute
  /\ Option_mapOrDefault (SomeObj id v) transform du = call transform v
  /\ Option_mapOrDefault None transform du s = (Ok du, s)
  /\ Option_mapOrCompute (SomeObj id v) transform computeU = call transform v
  /\ Option_mapOrCompute None transform computeU = call0 computeU.
Proof. repeat split. Qed.

(** ** The conversion utilities *)

Lemma fromValue_cases v s :
  ((v = VNull \/ v = VUndefined) /\ fromValue v s = (Ok None, s))
  \/ (defined v /\ fromValue v s = (Ok (SomeObj (next_id s) v), allocated s)).
Proof.
  destruct v; simpl;
    solve [ left; split; [auto | reflexivity]
          | right; split; [split; discriminate | reflexivity] ].
Qed.

Lemma fromNullable_cases v s :
  (v = VNull /\ fromNullable v s = (Ok None, s))
  \/ (v <> VNull
      /\ fromNullable v s = (Ok (SomeObj (next_id s) v), allocated s)).
Proof.
  destruct v; simpl;
    solve [ left; split; reflexivity
          | right; split; [discriminate | reflexivity] ].
Qed.

Lemma fromUndefinable_cases v s :
  (v = VUndefined /\ fromUndefinable v s = (Ok None, s))
  \/ (v <> VUndefined
      /\ fromUndefinable v s = (Ok (SomeObj (next_id s) v), allocated s)).
Proof.
  destruct v; simpl;
    solve [ left; split; reflexivity
          | right; split; [discriminate | reflexivity] ].
Qed.

Lemma fromValueConditional_cases v (isNone : Fn W bool) s :
  match call isNone v s with
  | (Ok true, s') => fromValueConditional v isNone s = (Ok None, s')
  | (Ok false, s') =>
      fromValueConditional v isNone s
      = (Ok (SomeObj (next_id s') v), allocated s')
  | (Throw e, s') => fromValueConditional v isNone s = (Throw e, s')
  end.
Proof.
  unfold fromValueConditional, bind.
  destruct (call isNone v s) as [[[|]|e] s']; reflexivity.
Qed.

(** C7. [fromValue] is absent exactly for [null] and [undefined],
    [fromNullable] exactly for [null] (so [undefined] is wrapped),
    [fromUndefinable] exactly for [undefined] (so [null] is wrapped); a
    present result is a new object holding the input itself. *)
Theorem conversion_sentinels v s :
  (fromValue v s = (Ok None, s) <-> v = VNull \/ v = VUndefined)
  /\ (defined v ->
      fromValue v s = (Ok (SomeObj (next_id s) v), allocated s))
  /\ (fromNullable v s = (Ok None, s) <-> v = VNull)
  /\ (v <> VNull ->
      fromNullable v s = (Ok (SomeObj (next_id s) v), allocated s))
  /\ fromNullable VUndefined s
     = (Ok (SomeObj (next_id s) VUndefined), allocated s)
  /\ (fromUndefinable v s = (Ok None, s) <-> v = VUndefined)
  /\ (v <> VUndefined ->
      fromUndefinable v s = (Ok (SomeObj (next_id s) v), allocated s))
  /\ fromUndefinable VNull s = (Ok (SomeObj (next_id s) VNull), allocated s)
  /\ (forall id u s',
        fromValue v s = (Ok (SomeObj id u), s')
        \/ fromNullable v s = (Ok (SomeObj id u), s')
        \/ fromUndefinable v s = (Ok (SomeObj id u), s') ->
        u = v).
Proof.
  repeat match goal with |- _ /\ _ => split end; try reflexivity.
  - split.
    + intro H. destruct (fromValue_cases v s) as [[Hv _]|[_ E]];
        [exact Hv | rewrite E in H; discriminate H].
    + intro Hv. destruct (fromValue_cases v s) as [[_ E]|[[N U] _]];
        [exact E | destruct Hv; contradiction].
  - intros [N U]. destruct (fromValue_cases v s) as [[Hv _]|[_ E]];
      [destruct Hv; contradiction | exact E].
  - split.
    + intro H. destruct (fromNullable_cases v s) as [[Hv _]|[_ E]];
        [exact Hv | rewrite E in H; discriminate H].
    + intro Hv. destruct (fromNullable_cases v s) as [[_ E]|[N _]];
        [exact E | contradiction].
  - intro N. destruct (fromNullable_cases v s) as [[Hv _]|[_ E]];
      [contradiction | exact E].
  - split.
    + intro H. destruct (fromUndefinable_cases v s) as [[Hv _]|[_ E]];
        [exact Hv | rewrite E in H; discriminate H].
    + intro Hv. destruct (fromUndefinable_cases v s) as [[_ E]|[N _]];
        [exact E | contradiction].
  - intro N. destruct (fromUndefinable_cases v s) as [[Hv _]|[_ E]];
      [contradiction | exact E].
  - intros id u s' [H|[H|H]].
    + destruct (fromValue_cases v s) as [[_ E]|[_ E]];
        rewrite E in H; [discriminate H | congruence].
    + destruct (fromNullable_cases v s) as [[_ E]|[_ E]];
        rewrite E in H; [discriminate H | congruence].
    + destruct (fromUndefinable_cases v s) as [[_ E]|[_ E]];
        rewrite E in H; [discriminate H | congruence].
Qed.

(** C8. The call [createOptionFactory(p)] returns, without applying [p], a
    function that is [fromValueConditional] with its predicate fixed to [p]:
    applied to [v] it is [None] when [p(v)] is true and a new present
    instance holding [v] when [p(v)] is false. *)
Theorem factory_refines_fromValueConditional (p : Fn W bool) v s :
  exists factory,
    createOptionFactory p s = (Ok factory, s)
    /\ factory = fromValueConditional_with p
    /\ factory v = fromValueConditional v p
    /\ (forall s', call p v s = (Ok true, s') ->
          factory v s = (Ok None, s'))
    /\ (forall s', call p v s = (Ok false, s') ->
          factory v s = (Ok (SomeObj (next_id s') v), allocated s')).
Proof.
  eexists. split; [reflexivity|].
  repeat split; intros s' H;
    pose proof (fromValueConditional_cases v p s) as C;
    rewrite H in C; exact C.
Qed.

(** ** The payload of a present instance *)

(** C2, as amended.  A present instance returned by [fromValue] holds
    neither [null] nor [undefined], one returned by [fromNullable] does not
    hold [null], one returned by [fromUndefinable] does not hold
    [undefined].  The [Some] constructor, [map], [fromValueConditional] and
    the function returned by [createOptionFactory] wrap whatever value they
    are given or compute, [null] and [undefined] included, and an object
    that wraps a value is present whatever the
    value: [isSome] is true, [isNone] is false, and [getValueOrDefault]
    returns the held value, not the default. *)
Theorem payload_of_present_instances id v d (f : Fn W Value)
    (isNone : Fn W bool) s :
  (forall r s', fromValue v s = (Ok r, s') -> payload_defined r)
  /\ (forall id' u s',
        fromNullable v s = (Ok (SomeObj id' u), s') -> u <> VNull)
  /\ (forall id' u s',
        fromUndefinable v s = (Ok (SomeObj id' u), s') -> u <> VUndefined)
  /\ Some v s = (Ok (SomeObj (next_id s) v), allocated s)
  /\ (forall u s', call f v s = (Ok u, s') ->
        Option_map (SomeObj id v) f s
        = (Ok (SomeObj (next_id s') u), allocated s'))
  /\ (forall s', call isNone v s = (Ok false, s') ->
        fromValueConditional v isNone s
        = (Ok (SomeObj (next_id s') v), allocated s'))
  /\ (forall factory s1 s',
        createOptionFactory isNone s = (Ok factory, s1) ->
        call isNone v s1 = (Ok false, s') ->
        factory v s1 = (Ok (SomeObj (next_id s') v), allocated s'))
  /\ Option_isSome (SomeObj id v) = true
  /\ Option_isNone (SomeObj id v) = false
  /\ Option_getValueOrDefault (SomeObj id v) d s = (Ok v, s).
Proof.
  repeat match goal with |- _ /\ _ => split end; try reflexivity.
  - intros r s' H. destruct (fromValue_cases v s) as [[_ E]|[D E]];
      rewrite E in H; injection H as <- _; [exact I | exact D].
  - intros id' u s' H. destruct (fromNullable_cases v s) as [[_ E]|[D E]];
      rewrite E in H; [discriminate H | congruence].
  - intros id' u s' H. destruct (fromUndefinable_cases v s) as [[_ E]|[D E]];
      rewrite E in H; [discriminate H | congruence].
  - intros u s' H. simpl. unfold Some_map.
    rewrite (bind_Ok _ _ _ _ _ H). reflexivity.
  - intros s' H. pose proof (fromValueConditional_cases v isNone s) as C.
    rewrite H in C. exact C.
  - intros factory s1 s' E H. injection E as <- _.
    pose proof (fromValueConditional_cases v isNone s1) as C.
    rewrite H in C. exact C.
Qed.

(** ** Exceptions *)

Lemma Option_match_faults {U : Type} this (some : Fn W U) (none : Thunk W U) :
  faults_only_from (Option_match this some none)
    (fun e s' => fault_of_fn some e s' \/ fault_of_thunk none e s').
Proof.
  intros s e s' H. destruct this; simpl in H.
  - right. exact (call0_fault _ _ _ _ H).
  - left. exact (call_fault _ _ _ _ _ H).
Qed.

Lemma Option_getValueOrCompute_faults this (compute : Thunk W Value) :
  faults_only_from (Option_getValueOrCompute this compute)
    (fault_of_thunk compute).
Proof.
  intros s e s' H. destruct this; simpl in H.
  - exact (call0_fault _ _ _ _ H).
  - discriminate H.
Qed.

Lemma Option_mapOrDefault_faults {U : Type} this (transform : Fn W U)
    (du : U) :
  faults_only_from (Option_mapOrDefault this transform du)
    (fault_of_fn transform).
Proof.
  intros s e s' H. destruct this; simpl in H.
  - discriminate H.
  - exact (call_fault _ _ _ _ _ H).
Qed.

Lemma Option_mapOrCompute_faults {U : Type} this (transform : Fn W U)
    (computeU : Thunk W U) :
  faults_only_from (Option_mapOrCompute this transform computeU)
    (fun e s' => fault_of_fn transform e s' \/ fault_of_thunk computeU e s').
Proof.
  intros s e s' H. destruct this; simpl in H.
  - right. exact (call0_fault _ _ _ _ H).
  - left. exact (call_fault _ _ _ _ _ H).
Qed.

Lemma Option_map_faults this (f : Fn W Value) :
  faults_only_from (Option_map this f) (fault_of_fn f).
Proof.
  intros s e s' H. destruct this; simpl in H.
  - discriminate H.
  - apply bind_Throw_inv in H. destruct H as [H | (u & s1 & _ & H)].
    + exact (call_fault _ _ _ _ _ H).
    + discriminate H.
Qed.

Lemma Option_andThen_faults this (g : Fn W Option) :
  faults_only_from (Option_andThen this g) (fault_of_fn g).
Proof.
  intros s e s' H. destruct this; simpl in H.
  - discriminate H.
  - exact (call_fault _ _ _ _ _ H).
Qed.

Lemma Option_orElse_faults this (h : Thunk W Option) :
  faults_only_from (Option_orElse this h) (fault_of_thunk h).
Proof.
  intros s e s' H. destruct this; simpl in H.
  - exact (call0_fault _ _ _ _ H).
  - discriminate H.
Qed.

Lemma Option_filter_faults this (pred : Fn W bool) :
  faults_only_from (Option_filter this pred) (fault_of_fn pred).
Proof.
  intros s e s' H. destruct this; simpl in H.
  - discriminate H.
  - apply bind_Throw_inv in H. destruct H as [H | (keep & s1 & _ & H)].
    + exact (call_fault _ _ _ _ _ H).
    + destruct keep; discriminate H.
Qed.

Lemma fromValueConditional_faults v (isNone : Fn W bool) :
  faults_only_from (fromValueConditional v isNone) (fault_of_fn isNone).
Proof.
  intros s e s' H. apply bind_Throw_inv in H.
  destruct H as [H | (absent & s1 & _ & H)].
  - exact (call_fault _ _ _ _ _ H).
  - destruct absent; discriminate H.
Qed.

Lemma conversions_never_raise v :
  never_raises (Some (W := W) v) /\ never_raises (fromValue (W := W) v)
  /\ never_raises (fromNullable (W := W) v)
  /\ never_raises (fromUndefinable (W := W) v).
Proof.
  repeat split; intro s.
  - eexists _, _. reflexivity.
  - destruct (fromValue_cases v s) as [[_ E]|[_ E]];
      rewrite E; eexists _, _; reflexivity.
  - destruct (fromNullable_cases v s) as [[_ E]|[_ E]];
      rewrite E; eexists _, _; reflexivity.
  - destruct (fromUndefinable_cases v s) as [[_ E]|[_ E]];
      rewrite E; eexists _, _; reflexivity.
Qed.

(** C9. On every receiver and for all arguments: the operations that take
    no callback return normally; an operation that takes callbacks raises
    only when the body of one of them has raised, and then with that very
    exception and in the state that body left; and where an operation
    applies a callback, an exception of the callback is the outcome of the
    operation (nothing is caught). *)
Theorem core_never_raises {U : Type} this id o v d (du : U)
    (some transform : Fn W U) (none computeU : Thunk W U)
    (compute : Thunk W Value) (f : Fn W Value) (g : Fn W Option)
    (h : Thunk W Option) (pred : Fn W bool) :
  (never_raises (Option_getValueOrDefault (W := W) this d)
   /\ never_raises (Option_and (W := W) this o)
   /\ never_raises (Option_or (W := W) this o)
   /\ never_raises (Some (W := W) v)
   /\ never_raises (fromValue (W := W) v)
   /\ never_raises (fromNullable (W := W) v)
   /\ never_raises (fromUndefinable (W := W) v)
   /\ never_raises (createOptionFactory pred))
  /\ (faults_only_from (Option_match this some none)
        (fun e s' => fault_of_fn some e s' \/ fault_of_thunk none e s')
      /\ faults_only_from (Option_getValueOrCompute this compute)
           (fault_of_thunk compute)
      /\ faults_only_from (Option_mapOrDefault this transform du)
           (fault_of_fn transform)
      /\ faults_only_from (Option_mapOrCompute this transform computeU)
           (fun e s' =>
              fault_of_fn transform e s' \/ fault_of_thunk computeU e s')
      /\ faults_only_from (Option_map this f) (fault_of_fn f)
      /\ faults_only_from (Option_andThen this g) (fault_of_fn g)
      /\ faults_only_from (Option_orElse this h) (fault_of_thunk h)
      /\ faults_only_from (Option_filter this pred) (fault_of_fn pred)
      /\ faults_only_from (fromValueConditional v pred) (fault_of_fn pred)
      /\ (forall factory s s1,
            createOptionFactory pred s = (Ok factory, s1) ->
            faults_only_from (factory v) (fault_of_fn pred)))
  /\ (forall s e s',
        (call some v s = (Throw e, s') ->
         Option_match (SomeObj id v) some none s = (Throw e, s'))
        /\ (call0 none s = (Throw e, s') ->
            Option_match None some none s = (Throw e, s'))
        /\ (call0 compute s = (Throw e, s') ->
            Option_getValueOrCompute None compute s = (Throw e, s'))
        /\ (call transform v s = (Throw e, s') ->
            Option_mapOrDefault (SomeObj id v) transform du s = (Throw e, s'))
        /\ (call transform v s = (Throw e, s') ->
            Option_mapOrCompute (SomeObj id v) transform computeU s
            = (Throw e, s'))
        /\ (call0 computeU s = (Throw e, s') ->
            Option_mapOrCompute None transform computeU s = (Throw e, s'))
        /\ (call f v s = (Throw e, s') ->
            Option_map (SomeObj id v) f s = (Throw e, s'))
        /\ (call g v s = (Throw e, s') ->
            Option_andThen (SomeObj id v) g s = (Throw e, s'))
        /\ (call0 h s = (Throw e, s') ->
            Option_orElse None h s = (Throw e, s'))
        /\ (call pred v s = (Throw e, s') ->
            Option_filter (SomeObj id v) pred s = (Throw e, s'))
        /\ (call pred v s = (Throw e, s') ->
            fromValueConditional v pred s = (Throw e, s'))).
Proof.
  split; [|split].
  - destruct (conversions_never_raise v) as (HS & HV & HN & HU).
    repeat match goal with |- _ /\ _ => split end;
      try assumption; intro s;
      try (destruct this; eexists _, _; reflexivity).
  - repeat match goal with |- _ /\ _ => split end.
    + apply Option_match_faults.
    + apply Option_getValueOrCompute_faults.
    + apply Option_mapOrDefault_faults.
    + apply Option_mapOrCompute_faults.
    + apply Option_map_faults.
    + apply Option_andThen_faults.
    + apply Option_orElse_faults.
    + apply Option_filter_faults.
    + apply fromValueConditional_faults.
    + intros factory s s1 H. injection H as <- _.
      apply fromValueConditional_faults.
  - intros s e s'.
    repeat match goal with |- _ /\ _ => split end;
      intro H; simpl; try exact H.
    + unfold Some_map. apply bind_Throw. exact H.
    + unfold Some_filter. apply bind_Throw. exact H.
    + unfold fromValueConditional. apply bind_Throw. exact H.
Qed.

(** ** Identity of the absent results *)

Lemma module_absent_is_None (r : Option) :
  module_object r -> Option_isNone r = true -> r = None.
Proof.
  destruct r as [i|i x]; simpl; [intros -> _; reflexivity | discriminate].
Qed.

Lemma fromValueConditional_module v (p : Fn W bool) s r s' :
  fromValueConditional v p s = (Ok r, s') -> module_object r.
Proof.
  intro H. pose proof (fromValueConditional_cases v p s) as C.
  destruct (call p v s) as [[[|]|e] s1]; rewrite C in H;
    [| |discriminate H]; injection H as <- _; reflexivity.
Qed.

Lemma public_result_module (r : Option) :
  public_result (W := W) r -> module_object r.
Proof.
  intros [E
         |v s s' H
         |this f s s' Mt H
         |this o s s' Mt Mo H
         |this g s s' Mt Mg H
         |this o s s' Mt Mo H
         |this h s s' Mt Mh H
         |this p s s' Mt H
         |v s s' H
         |v p s s' H
         |v s s' H
         |v s s' H
         |p factory s0 s1 v s s' E H].
  - subst r. reflexivity.
  - injection H as <- _. exact I.
  - destruct this as [i|i x]; simpl in H.
    + injection H as <- _. reflexivity.
    + unfold Some_map, bind in H.
      destruct (call f x s) as [[u|e] s2]; [|discriminate H].
      injection H as <- _. exact I.
  - destruct this; simpl in H; injection H as <- _;
      [reflexivity | exact Mo].
  - destruct this as [i|i x]; simpl in H.
    + injection H as <- _. reflexivity.
    + exact (Mg _ _ _ _ H).
  - destruct this; simpl in H; injection H as <- _;
      [exact Mo | exact I].
  - destruct this as [i|i x]; simpl in H.
    + exact (Mh _ _ _ H).
    + injection H as <- _. exact I.
  - destruct this as [i|i x]; simpl in H.
    + injection H as <- _. reflexivity.
    + unfold Some_filter, bind in H.
      destruct (call p x s) as [[[|]|e] s2]; [| |discriminate H];
        injection H as <- _; [exact I | reflexivity].
  - destruct (fromValue_cases v s) as [[_ E]|[_ E]]; rewrite E in H;
      injection H as <- _; [reflexivity | exact I].
  - exact (fromValueConditional_module _ _ _ _ _ H).
  - destruct (fromNullable_cases v s) as [[_ E]|[_ E]]; rewrite E in H;
      injection H as <- _; [reflexivity | exact I].
  - destruct (fromUndefinable_cases v s) as [[_ E]|[_ E]]; rewrite E in H;
      injection H as <- _; [reflexivity | exact I].
  - injection E as <- _. exact (fromValueConditional_module _ _ _ _ _ H).
Qed.

(** C10. The absent results are the exported constant: [map], [and],
    [andThen] and [filter] of the [None] literal return [None]; [filter] of
    a [Some] object returns [None] when the predicate rejects; the five
    conversion utilities return [None] on their absent branch.  Hence a
    result of [map], of [filter] or of a conversion utility that is absent
    is the object [None] itself.  More generally every operation that
    returns an option, [and], [andThen], [or] and [orElse] included,
    applied to objects of the module and to functions that return such
    objects, returns an object of the module; so any two absent results of
    any operations are one and the same object, [None]. *)
Theorem absent_results_are_None this id v o (f : Fn W Value)
    (g : Fn W Option) (pred isNone : Fn W bool) s :
  (Option_map None f s = (Ok None, s)
   /\ Option_and None o s = (Ok None, s)
   /\ Option_andThen None g s = (Ok None, s)
   /\ Option_filter None pred s = (Ok None, s))
  /\ (forall s', call pred v s = (Ok false, s') ->
        Option_filter (SomeObj id v) pred s = (Ok None, s'))
  /\ (fromValue VNull s = (Ok None, s)
      /\ fromValue VUndefined s = (Ok None, s)
      /\ fromNullable VNull s = (Ok None, s)
      /\ fromUndefinable VUndefined s = (Ok None, s)
      /\ (forall s', call isNone v s = (Ok true, s') ->
            fromValueConditional v isNone s = (Ok None, s'))
      /\ (forall factory s1 s',
            createOptionFactory isNone s = (Ok factory, s1) ->
            call isNone v s1 = (Ok true, s') ->
            factory v s1 = (Ok None, s')))
  /\ (forall r s',
        Option_map this f s = (Ok r, s')
        \/ Option_filter this pred s = (Ok r, s')
        \/ fromValue v s = (Ok r, s')
        \/ fromValueConditional v isNone s = (Ok r, s')
        \/ fromNullable v s = (Ok r, s')
        \/ fromUndefinable v s = (Ok r, s') ->
        Option_isNone r = true ->
        r = None /\ same_object r None = true)
  /\ (forall r, public_result (W := W) r -> module_object r)
  /\ (forall r1 r2,
        public_result (W := W) r1 -> public_result (W := W) r2 ->
        Option_isNone r1 = true -> Option_isNone r2 = true ->
        r1 = None /\ r2 = None /\ r1 = r2 /\ same_object r1 r2 = true).
Proof.
  split; [repeat split|split; [|split; [|split; [|split]]]].
  - intros s' H. simpl. unfold Some_filter.
    rewrite (bind_Ok _ _ _ _ _ H). reflexivity.
  - repeat match goal with |- _ /\ _ => split end; try reflexivity.
    + intros s' H. pose proof (fromValueConditional_cases v isNone s) as C.
      rewrite H in C. exact C.
    + intros factory s1 s' E H. injection E as <- _.
      pose proof (fromValueConditional_cases v isNone s1) as C.
      rewrite H in C. exact C.
  - assert (Hnone : forall r, r = None \/ Option_isNone r = false ->
                    Option_isNone r = true ->
                    r = None /\ same_object r None = true).
    { intros r [->|E] T; [split; reflexivity | congruence]. }
    intros r s' H. apply Hnone.
    destruct H as [H|[H|[H|[H|[H|H]]]]].
    + destruct this; simpl in H.
      * injection H as <- _. left. reflexivity.
      * unfold Some_map, bind in H.
        destruct (call f value s) as [[u|e] s1]; [|discriminate H].
        injection H as <- _. right. reflexivity.
    + destruct this; simpl in H.
      * injection H as <- _. left. reflexivity.
      * unfold Some_filter, bind in H.
        destruct (call pred value s) as [[[|]|e] s1]; [| |discriminate H];
          injection H as <- _; [right | left]; reflexivity.
    + destruct (fromValue_cases v s) as [[_ E]|[_ E]]; rewrite E in H;
        injection H as <- _; [left | right]; reflexivity.
    + pose proof (fromValueConditional_cases v isNone s) as C.
      destruct (call isNone v s) as [[[|]|e] s1]; rewrite C in H;
        [| |discriminate H]; injection H as <- _; [left | right]; reflexivity.
    + destruct (fromNullable_cases v s) as [[_ E]|[_ E]]; rewrite E in H;
        injection H as <- _; [left | right]; reflexivity.
    + destruct (fromUndefinable_cases v s) as [[_ E]|[_ E]]; rewrite E in H;
        injection H as <- _; [left | right]; reflexivity.
  - exact public_result_module.
  - intros r1 r2 P1 P2 N1 N2.
    rewrite (module_absent_is_None r1 (public_result_module r1 P1) N1).
    rewrite (module_absent_is_None r2 (public_result_module r2 P2) N2).
    repeat split.
Qed.

End Properties.

(** * Laws relating the operations to one another *)

Section Laws.

Context {W : Type}.

Implicit Types (s : State W) (v d u : Value) (id k : nat)
  (o this a b c r : Option).

Lemma call_pure {A : Type} (f : Fn W A) (F : Value -> A) v s :
  pure_fn f F -> call f v s = (Ok (F v), record_call (fn_id f) [v] s).
Proof. intro H. unfold call. apply H. Qed.

Lemma eqb_succ_false (n : nat) : Nat.eqb n (S n) = false.
Proof. induction n as [|n IH]; [reflexivity | exact IH]. Qed.

Lemma eqb_lt_false (n m : nat) : n < m -> Nat.eqb m n = false.
Proof.
  intro H. apply Nat.eqb_neq. intros ->. exact (Nat.lt_irrefl _ H).
Qed.

(** ** [match] and the variant flags *)

(** [mapOrCompute] and [match] are one and the same operation: on every
    receiver, for all callbacks, the same result, the same final state and
    the same invocations. *)
Theorem mapOrCompute_is_match {U : Type} this (f : Fn W U) (t : Thunk W U) :
  Option_mapOrCompute this f t = Option_match this f t.
Proof. destruct this; reflexivity. Qed.

(** [isNone] is the negation of [isSome], and the flags tell which branch
    the other members take: with [isSome] there is a held value that
    [match] passes to its first callback and [getValueOrDefault] returns;
    with [isNone], [match] calls its second callback and
    [getValueOrDefault] returns the default. *)
Theorem variant_flags_decide this :
  Option_isNone this = negb (Option_isSome this)
  /\ (Option_isSome this = true ->
      exists v, held this = [v]
        /\ (forall (U : Type) (some : Fn W U) (none : Thunk W U),
              Option_match this some none = call some v)
        /\ (forall d s, Option_getValueOrDefault this d s = (Ok v, s)))
  /\ (Option_isNone this = true ->
      held this = []
      /\ (forall (U : Type) (some : Fn W U) (none : Thunk W U),
            Option_match this some none = call0 none)
      /\ (forall d s, Option_getValueOrDefault this d s = (Ok d, s))).
Proof.
  destruct this as [i|i v]; simpl; (split; [reflexivity|]); split; intro H;
    try discriminate H.
  - repeat split.
  - exists v. repeat split.
Qed.

(** ** What [map] and [filter] do to the variant *)

(** [map] never changes the variant: when it returns, the result is present
    exactly when the receiver is, and an absent result is [None]. *)
Theorem map_preserves_variant this (f : Fn W Value) s r s' :
  Option_map this f s = (Ok r, s') ->
  Option_isSome r = Option_isSome this
  /\ (Option_isNone this = true -> r = None /\ s' = s).
Proof.
  destruct this as [i|i v]; simpl; intro H.
  - injection H as <- <-. repeat split.
  - unfold Some_map, bind in H.
    destruct (call f v s) as [[u|e] s1]; [|discriminate H].
    injection H as <- _. split; [reflexivity | discriminate].
Qed.

(** [filter] returns the receiver itself or [None], nothing else; a present
    result is the receiver, and an absent receiver gives [None] without the
    state being touched. *)
Theorem filter_returns_receiver_or_None this (p : Fn W bool) s r s' :
  Option_filter this p s = (Ok r, s') ->
  ((r = this /\ Option_isSome this = true) \/ r = None)
  /\ (Option_isSome r = true -> r = this)
  /\ (Option_isSome this = false -> r = None /\ s' = s).
Proof.
  destruct this as [i|i v]; simpl; intro H.
  - injection H as <- <-.
    split; [right; reflexivity|]. split; [discriminate|].
    intros _. split; reflexivity.
  - unfold Some_filter, bind in H.
    destruct (call p v s) as [[[|]|e] s1]; [| |discriminate H];
      injection H as <- _.
    + split; [left; split; reflexivity|]. split; [reflexivity|discriminate].
    + split; [right; reflexivity|]. split; discriminate.
Qed.

(** ** [map] as a functor *)

(** Identity law: [o.map(x => x)] has the content of [o] and leaves the
    consumer's world alone; but for a present [o] it is a new object, not
    [o] itself. *)
Theorem map_identity this k s :
  exists r s',
    Option_map this (identity_fn k) s = (Ok r, s')
    /\ same_content r this
    /\ world s' = world s
    /\ (Option_isSome this = true -> object_id this < next_id s ->
        same_object r this = false).
Proof.
  destruct this as [i|i v]; simpl.
  - eexists _, _. repeat split. discriminate.
  - eexists _, _. split; [reflexivity|]. repeat split.
    intros _ Hlt. simpl in *. apply eqb_lt_false. exact Hlt.
Qed.

(** Composition law, for transforms without effect: [o.map(f).map(g)] and
    [o.map(x => g(f(x)))] return objects of the same content, which for a
    present [o] is [g(f(v))], and both leave the world alone. *)
Theorem map_composition this k (f g : Fn W Value) (F G : Value -> Value) s :
  pure_fn f F -> pure_fn g G ->
  exists r1 s1 r2 s2,
    map_map this f g s = (Ok r1, s1)
    /\ Option_map this (compose_fn k f g) s = (Ok r2, s2)
    /\ same_content r1 r2
    /\ held r1 = List.map (fun x => G (F x)) (held this)
    /\ world s1 = world s /\ world s2 = world s.
Proof.
  intros Hf Hg. destruct this as [i|i v].
  - eexists _, _, _, _. repeat split.
  - eexists _, _, _, _.
    unfold map_map, Option_map, Some_map, compose_fn, bind, call. simpl.
    rewrite !Hf. simpl. rewrite !Hg. simpl.
    split; [reflexivity|]. split; [reflexivity|]. repeat split.
Qed.

(** ** [andThen] as a monad *)

(** Left identity: [Some(v).andThen(f)] is [f(v)], run after the
    allocation.  Right identity: [o.andThen(x => Some(x))] has the content
    of [o], in a new object when [o] is present. *)
Theorem andThen_identities this v k (f : Fn W Option) s :
  bind (Some v) (fun o => Option_andThen o f) s = call f v (allocated s)
  /\ exists r s',
       Option_andThen this (Some_fn k) s = (Ok r, s')
       /\ same_content r this
       /\ world s' = world s
       /\ (Option_isSome this = true -> object_id this < next_id s ->
           same_object r this = false).
Proof.
  split; [reflexivity|].
  destruct this as [i|i x]; simpl.
  - eexists _, _. repeat split. discriminate.
  - eexists _, _. split; [reflexivity|]. repeat split.
    intros _ Hlt. simpl in *. apply eqb_lt_false. exact Hlt.
Qed.

(** Associativity, for arbitrary callbacks: [o.andThen(x =>
    f(x).andThen(g))] is [o.andThen(f).andThen(g)], run after the
    invocation of the outer function has been recorded when [o] is present;
    when [o] is absent both are [None] and nothing is invoked. *)
Theorem andThen_associative this k (f g : Fn W Option) s :
  Option_andThen this (andThen_fn k f g) s
  = andThen_chain this [f; g]
      (if Option_isSome this then record_call k (held this) s else s).
Proof.
  destruct this as [i|i v]; simpl.
  - reflexivity.
  - unfold Some_andThen, andThen_fn, call, bind. simpl.
    destruct (fn_body f v _) as [[r|e] s1]; [|reflexivity].
    destruct (Option_andThen r g s1) as [[r2|e] s2]; reflexivity.
Qed.

(** ** The algebra of [or] and [and] *)

(** [or] is associative on all receivers, idempotent, has [None] as left
    identity and, on the objects of the module, as right identity; its
    result is present exactly when one of the operands is.  No state is
    touched. *)
Theorem or_laws a b c s :
  bind (Option_or a b) (fun r => Option_or r c) s
  = bind (Option_or b c) (fun r => Option_or a r) s
  /\ Option_or None a s = (Ok a, s)
  /\ (module_object a -> Option_or a None s = (Ok a, s))
  /\ Option_or a a s = (Ok a, s)
  /\ exists r, Option_or a b s = (Ok r, s)
       /\ Option_isSome r = Option_isSome a || Option_isSome b.
Proof.
  split; [destruct a, b; reflexivity|]. split; [reflexivity|].
  split; [|split].
  - destruct a as [i|i v]; simpl; [intros ->|intros _]; reflexivity.
  - destruct a as [i|i v]; reflexivity.
  - destruct a; eexists; (split; [reflexivity|]); reflexivity.
Qed.

(** [and] is associative on all receivers, has [None] as a zero on both
    sides, is idempotent on the objects of the module, and its result is
    present exactly when both operands are.  No state is touched. *)
Theorem and_laws a b c s :
  bind (Option_and a b) (fun r => Option_and r c) s
  = bind (Option_and b c) (fun r => Option_and a r) s
  /\ Option_and None a s = (Ok None, s)
  /\ Option_and a None s = (Ok None, s)
  /\ (module_object a -> Option_and a a s = (Ok a, s))
  /\ exists r, Option_and a b s = (Ok r, s)
       /\ Option_isSome r = Option_isSome a && Option_isSome b.
Proof.
  split; [destruct a, b; reflexivity|]. split; [reflexivity|].
  split; [destruct a; reflexivity|]. split.
  - destruct a as [i|i v]; simpl; [intros ->|intros _]; reflexivity.
  - destruct a; eexists; (split; [reflexivity|]); reflexivity.
Qed.

(** Absorption, on the objects of the module: [a.or(a.and(b))] and
    [a.and(a.or(b))] are both [a] itself. *)
Theorem and_or_absorption a b s :
  module_object a ->
  bind (Option_and a b) (fun r => Option_or a r) s = (Ok a, s)
  /\ bind (Option_or a b) (fun r => Option_and a r) s = (Ok a, s).
Proof.
  destruct a as [i|i v]; simpl; [intros ->|intros _]; split; reflexivity.
Qed.

(** ** Eager and lazy forms *)

(** [and], [or] and [getValueOrDefault] return what [andThen], [orElse]
    and [getValueOrCompute] return on a constant function, and leave the
    state untouched; the lazy form differs by the one invocation it
    records, of the function on the held value for [andThen] on a present
    receiver, of the thunk for [orElse] and [getValueOrCompute] on an
    absent receiver.  [mapOrDefault(f, d)] and [mapOrCompute(f, () => d)]
    are both the call of [f] on the held value on a present receiver; on
    an absent receiver [mapOrDefault] returns [d] with the state untouched
    and [mapOrCompute] returns [d] once the invocation of the thunk is
    recorded. *)
Theorem eager_is_lazy_on_constants {U : Type} this o d k (du : U)
    (f : Fn W U) s :
  Option_andThen this (const_fn k o) s
  = (fst (Option_and this o s),
     if Option_isSome this then record_call k (held this) s else s)
  /\ snd (Option_and this o s) = s
  /\ Option_orElse this (const_thunk k o) s
     = (fst (Option_or this o s),
        if Option_isNone this then record_call k [] s else s)
  /\ snd (Option_or this o s) = s
  /\ Option_getValueOrCompute this (const_thunk k d) s
     = (fst (Option_getValueOrDefault this d s),
        if Option_isNone this then record_call k [] s else s)
  /\ snd (Option_getValueOrDefault this d s) = s
  /\ Option_mapOrCompute this f (const_thunk k du) s
     = (if Option_isNone this
        then (Ok du, record_call k [] s)
        else Option_mapOrDefault this f du s)
  /\ (Option_isNone this = true ->
      Option_mapOrDefault this f du s = (Ok du, s)
      /\ Option_mapOrCompute this f (const_thunk k du) s
         = (Ok du, record_call k [] s))
  /\ (Option_isSome this = true ->
      exists v, held this = [v]
        /\ Option_mapOrDefault this f du s = call f v s
        /\ Option_mapOrCompute this f (const_thunk k du) s = call f v s).
Proof.
  destruct this as [i|i v];
    repeat match goal with |- _ /\ _ => split end;
    try reflexivity; try discriminate; intros _.
  - split; reflexivity.
  - exists v. repeat split.
Qed.

(** [mapOrDefault] is [map] followed by [getValueOrDefault], and
    [mapOrCompute] is [map] followed by [getValueOrCompute], with the same
    result (or exception), the same world and the same invocations: the
    fused forms only spare the allocation of the intermediate object. *)
Theorem mapOr_fuses_map this (f : Fn W Value) d (t : Thunk W Value) s :
  let two := bind (Option_map this f)
                  (fun r => Option_getValueOrDefault r d) s in
  let one := Option_mapOrDefault this f d s in
  let two' := bind (Option_map this f)
                   (fun r => Option_getValueOrCompute r t) s in
  let one' := Option_mapOrCompute this f t s in
  (fst two = fst one
   /\ world (snd two) = world (snd one)
   /\ calls (snd two) = calls (snd one))
  /\ (fst two' = fst one'
      /\ world (snd two') = world (snd one')
      /\ calls (snd two') = calls (snd one')).
Proof.
  destruct this as [i|i v]; simpl.
  - repeat split.
  - unfold Some_map, Some_mapOrDefault, Some_mapOrCompute, bind.
    destruct (call f v s) as [[u|e] s1]; repeat split.
Qed.

(** ** Chains of [filter] *)

(** When the first predicate rejects, the second is not invoked.  For
    predicates without effect, [o.filter(p).filter(q)] keeps the receiver
    itself exactly when both hold, as [o.filter(x => p(x) && q(x))] does;
    in particular filtering twice by the same predicate returns what
    filtering once returns. *)
Theorem filter_chain id v k (p q : Fn W bool) (P Q : Value -> bool) s :
  (forall s', call p v s = (Ok false, s') ->
     filter_filter (SomeObj id v) p q s = (Ok None, s'))
  /\ filter_filter None p q s = (Ok None, s)
  /\ (pure_fn p P -> pure_fn q Q ->
      fst (filter_filter (SomeObj id v) p q s)
        = Ok (if P v && Q v then SomeObj id v else None)
      /\ fst (Option_filter (SomeObj id v) (both_fn k p q) s)
         = fst (filter_filter (SomeObj id v) p q s))
  /\ (pure_fn p P ->
      fst (filter_filter (SomeObj id v) p p s)
      = fst (Option_filter (SomeObj id v) p s)).
Proof.
  split; [|split; [reflexivity|split]].
  - intros s' H. unfold filter_filter. simpl. unfold Some_filter.
    rewrite (bind_Ok _ _ _ _ _ (bind_Ok _ _ _ _ _ H)). reflexivity.
  - intros Hp Hq.
    unfold filter_filter, Option_filter, Some_filter, both_fn, bind, call.
    simpl. rewrite !Hp. destruct (P v); simpl.
    + rewrite !Hq. destruct (Q v); split; reflexivity.
    + split; reflexivity.
  - intros Hp.
    unfold filter_filter, Option_filter, Some_filter, bind, call.
    simpl. rewrite !Hp. destruct (P v) eqn:E; simpl.
    + rewrite Hp, E. reflexivity.
    + reflexivity.
Qed.

(** ** Identity of the objects *)

(** Two calls of [Some] never return the same object, even for the same
    value, and no object built by [Some] is [None]; two calls of
    [fromValue] on the same value return the same object exactly when the
    value is [null] or [undefined]. *)
Theorem identity_of_results v u s :
  identical (Some v) (Some u) s = (Ok false, allocated (allocated s))
  /\ fst (identical (Some v) (ret None) s) = Ok false
  /\ fst (identical (fromValue v) (fromValue v) s)
     = Ok (strict_eq v VNull || strict_eq v VUndefined).
Proof.
  split; [|split].
  - unfold identical, bind, Some, ret, allocated. simpl.
    rewrite eqb_succ_false. reflexivity.
  - reflexivity.
  - unfold identical, bind.
    destruct (fromValue_cases v s) as [[[-> | ->] _]|[[N U] E]];
      try reflexivity.
    rewrite E.
    destruct (fromValue_cases v (allocated s)) as [[[-> | ->] _]|[_ E']];
      try contradiction.
    rewrite E'. unfold ret. simpl. rewrite eqb_succ_false.
    destruct v; try reflexivity; contradiction.
Qed.

(** ** The conversion utilities *)

(** [fromValue], [fromNullable] and [fromUndefinable] are
    [fromValueConditional] with the predicates [x => x === null || x ===
    undefined], [x => x === null] and [x => x === undefined]: the same
    outcome, once the invocation of the predicate has been recorded. *)
Theorem conversions_are_conditional v k s :
  fromValueConditional v (is_nullish_fn k) s
  = fromValue v (record_call k [v] s)
  /\ fromValueConditional v (is_null_fn k) s
     = fromNullable v (record_call k [v] s)
  /\ fromValueConditional v (is_undefined_fn k) s
     = fromUndefinable v (record_call k [v] s).
Proof.
  unfold fromValueConditional, fromValue, fromNullable, fromUndefinable,
    bind, call. simpl.
  repeat split.
Qed.

(** Wrapping and unwrapping: [fromNullable(v).getValueOrDefault(null)] and
    [fromUndefinable(v).getValueOrDefault(undefined)] give [v] back for
    every [v]; [fromValue(v).getValueOrDefault(d)] is [d] when [v] is
    [null] or [undefined] and [v] otherwise; [Some(v).getValueOrDefault(d)]
    is [v], whatever [v]. *)
Theorem wrap_unwrap v d s :
  fst (bind (fromNullable v) (fun o => Option_getValueOrDefault o VNull) s)
    = Ok v
  /\ fst (bind (fromUndefinable v)
               (fun o => Option_getValueOrDefault o VUndefined) s)
     = Ok v
  /\ fst (bind (fromValue v) (fun o => Option_getValueOrDefault o d) s)
     = Ok (if strict_eq v VNull || strict_eq v VUndefined then d else v)
  /\ fst (bind (Some v) (fun o => Option_getValueOrDefault o d) s) = Ok v.
Proof.
  repeat match goal with |- _ /\ _ => split end;
    destruct v; reflexivity.
Qed.

(** ** How often the callbacks are invoked *)

Lemma call_quiet {A : Type} (f : Fn W A) v s :
  quiet_fn f -> snd (call f v s) = record_call (fn_id f) [v] s.
Proof. intro H. unfold call. apply H. Qed.

Lemma call0_quiet {A : Type} (t : Thunk W A) s :
  quiet_thunk t -> snd (call0 t s) = record_call (thunk_id t) [] s.
Proof. intro H. unfold call0. apply H. Qed.

Lemma bind_call_quiet {A B : Type} (f : Fn W A) (k : A -> M W B) v s :
  quiet_fn f ->
  (forall x s1, calls (snd (k x s1)) = calls s1) ->
  calls (snd (bind (call f v) k s))
  = calls s ++ [mkInvocation (fn_id f) [v]].
Proof.
  intros Hf Hk. pose proof (call_quiet f v s Hf) as E.
  unfold bind. destruct (call f v s) as [[x|e] s1]; simpl in E; subst s1.
  - rewrite Hk. reflexivity.
  - reflexivity.
Qed.

(** With callbacks whose bodies leave the state alone, so that the log shows
    the invocations made by the module, every operation invokes exactly
    the callback of its variant, once, on the held value, or none at
    all. *)
Theorem invocations_per_call {U : Type} this v (some : Fn W U)
    (none : Thunk W U) (f : Fn W Value) (g : Fn W Option)
    (t : Thunk W Value) (h : Thunk W Option) (p : Fn W bool) (du : U) s :
  quiet_fn some -> quiet_thunk none -> quiet_fn f -> quiet_fn g ->
  quiet_thunk t -> quiet_thunk h -> quiet_fn p ->
  let one_of (i j : nat) :=
    calls s ++ (if Option_isSome this
                then [mkInvocation i (held this)]
                else [mkInvocation j []]) in
  let on_some (i : nat) :=
    calls s ++ (if Option_isSome this
                then [mkInvocation i (held this)]
                else []) in
  let on_none (j : nat) :=
    calls s ++ (if Option_isSome this then [] else [mkInvocation j []]) in
  calls (snd (Option_match this some none s))
    = one_of (fn_id some) (thunk_id none)
  /\ calls (snd (Option_mapOrCompute this some none s))
     = one_of (fn_id some) (thunk_id none)
  /\ calls (snd (Option_mapOrDefault this some du s)) = on_some (fn_id some)
  /\ calls (snd (Option_map this f s)) = on_some (fn_id f)
  /\ calls (snd (Option_andThen this g s)) = on_some (fn_id g)
  /\ calls (snd (Option_filter this p s)) = on_some (fn_id p)
  /\ calls (snd (Option_getValueOrCompute this t s)) = on_none (thunk_id t)
  /\ calls (snd (Option_orElse this h s)) = on_none (thunk_id h)
  /\ calls (snd (fromValueConditional v p s))
     = calls s ++ [mkInvocation (fn_id p) [v]].
Proof.
  intros Hsome Hnone Hf Hg Ht Hh Hp. simpl.
  assert (E : forall l : list Invocation, l ++ [] = l)
    by (intro l; apply app_nil_r).
  destruct this as [i|i x]; simpl; rewrite ?E;
    repeat match goal with |- _ /\ _ => split end;
    unfold None_match, None_mapOrCompute, None_getValueOrCompute,
      None_orElse, Some_match, Some_mapOrCompute, Some_mapOrDefault,
      Some_andThen, Some_map, Some_filter, fromValueConditional;
    rewrite ?call_quiet, ?call0_quiet by assumption;
    try reflexivity;
    apply bind_call_quiet; try assumption;
    intros x0 s1; try destruct x0; reflexivity.
Qed.

(** ** The earlier revision against the current one *)

(** On the objects of the module the two revisions agree on every member
    but [andThen] and [orElse].  They differ on another object built by
    [_none]: there the earlier [map], [and], [andThen] and [filter] return
    the receiver, where the current ones return the constant [None]. *)
Theorem legacy_agrees {U : Type} this id (some : Fn W U) (none : Thunk W U)
    (f : Fn W Value) (p : Fn W bool) (t : Thunk W Value) o d (du : U) s :
  (module_object this ->
   Legacy.Option_match this some none s = Option_match this some none s
   /\ Legacy.Option_getValueOrDefault this d s
      = Option_getValueOrDefault this d s
   /\ Legacy.Option_getValueOrCompute this t s
      = Option_getValueOrCompute this t s
   /\ Legacy.Option_mapOrDefault this some du s
      = Option_mapOrDefault this some du s
   /\ Legacy.Option_mapOrCompute this some none s
      = Option_mapOrCompute this some none s
   /\ Legacy.Option_map this f s = Option_map this f s
   /\ Legacy.Option_and this o s = Option_and this o s
   /\ Legacy.Option_or this o s = Option_or this o s
   /\ Legacy.Option_filter this p s = Option_filter this p s
   /\ Legacy.Option_isNone this = Option_isNone this
   /\ Legacy.Option_isSome this = Option_isSome this)
  /\ (Legacy.Option_map (NoneObj id) f s = (Ok (NoneObj id), s)
      /\ Legacy.Option_and (NoneObj id) o s = (Ok (NoneObj id), s)
      /\ Legacy.Option_andThen (NoneObj id) t s = (Ok (NoneObj id), s)
      /\ Legacy.Option_filter (NoneObj id) p s = (Ok (NoneObj id), s)).
Proof.
  split.
  - destruct this as [i|i v]; simpl; [intros ->|intros _];
      repeat match goal with |- _ /\ _ => split end; reflexivity.
  - repeat match goal with |- _ /\ _ => split end; reflexivity.
Qed.

(** In the earlier revision [andThen] and [orElse] call a function of no
    argument and wrap what it returns: [andThen] does not see the held
    value and cannot turn a present receiver into an absent result, and
    [orElse] on an absent receiver always returns a present instance, one
    that holds the option when the function returns an option, where the
    current [orElse] returns that option itself. *)
Theorem legacy_andThen_orElse_wrap this k o (t : Thunk W Value) s :
  (Option_isSome this = true ->
   Legacy.Option_andThen this t = bind (call0 t) Legacy.Some)
  /\ (Option_isNone this = true ->
      Legacy.Option_orElse this t = bind (call0 t) Legacy.Some)
  /\ (forall r s', Legacy.Option_andThen this t s = (Ok r, s') ->
        Option_isSome r = Option_isSome this)
  /\ (forall r s', Legacy.Option_orElse this t s = (Ok r, s') ->
        Option_isSome r = true)
  /\ Legacy.Option_orElse None (const_thunk k (VOption o)) s
     = (Ok (SomeObj (next_id s) (VOption o)), allocated (record_call k [] s))
  /\ Option_orElse None (const_thunk k o) s = (Ok o, record_call k [] s).
Proof.
  repeat match goal with |- _ /\ _ => split end; try reflexivity.
  - destruct this; simpl; [discriminate | reflexivity].
  - destruct this; simpl; [reflexivity | discriminate].
  - intros r s' H. destruct this as [i|i v]; simpl in H.
    + injection H as <- _. reflexivity.
    + unfold Legacy.Some_andThen, bind in H.
      destruct (call0 t s) as [[u|e] s1]; [|discriminate H].
      injection H as <- _. reflexivity.
  - intros r s' H. destruct this as [i|i v]; simpl in H.
    + unfold Legacy.none_orElse, bind in H.
      destruct (call0 t s) as [[u|e] s1]; [|discriminate H].
      injection H as <- _. reflexivity.
    + injection H as <- _. reflexivity.
Qed.

End Laws.

(** * The statements at concrete consumer code *)

Import Consumer.

Example Some_five : Some (VNum 5) s0 = (Ok five, s1).
Proof. reflexivity. Qed.

Example end_to_end_chain :
  fst (end_to_end s0) = Ok (SomeObj 2 (VNum 8))
  /\ calls (snd (end_to_end s0))
     = [mkInvocation 1 [VNum 4]; mkInvocation 4 [VNum 8]].
Proof. split; reflexivity. Qed.

Example compute_not_invoked_on_present :
  Option_getValueOrCompute five counting_ten s1 = (Ok (VNum 5), s1)
  /\ Option_getValueOrCompute None counting_ten s1
     = (Ok (VNum 10), mkState 1 2 [mkInvocation 5 []]).
Proof. split; reflexivity. Qed.

Example factory_scenario :
  fromValueConditional (VNum 0) negative s0
  = (Ok (SomeObj 1 (VNum 0)), mkState 0 2 [mkInvocation 3 [VNum 0]])
  /\ fromValueConditional (VNum (-1)) negative s0
     = (Ok None, mkState 0 1 [mkInvocation 3 [VNum (-1)]]).
Proof. split; reflexivity. Qed.

(** C1 at [Some(5).map(x => x * 2)]. *)
Lemma map_present_absent_witness :
  call double (VNum 5) s1
  = (Ok (VNum 10), mkState 0 2 [mkInvocation 1 [VNum 5]])
  /\ Option_map five double s1
     = (Ok (SomeObj 2 (VNum 10)), mkState 0 3 [mkInvocation 1 [VNum 5]]).
Proof.
  split.
  - reflexivity.
  - apply (proj1 (proj2 (map_present_absent 1 (VNum 5) double s1))
             (VNum 10) (mkState 0 2 [mkInvocation 1 [VNum 5]])).
    reflexivity.
Defined.

(** C3 at [five.andThen(_ => None).andThen(x => Some(x)).andThen(...)]:
    only the first callback is recorded. *)
Lemma andThen_and_contract_witness :
  andThen_chain five [to_None] s1
  = (Ok None, mkState 0 2 [mkInvocation 7 [VNum 5]])
  /\ andThen_chain five ([to_None] ++ [to_Some; to_Some]) s1
     = (Ok None, mkState 0 2 [mkInvocation 7 [VNum 5]]).
Proof.
  split.
  - reflexivity.
  - apply (proj1 (proj2 (proj2 (proj2
             (andThen_and_contract 1 (VNum 5) to_None
                [to_None] [to_Some; to_Some] five s1))))).
    reflexivity.
Defined.

(** C5 at [five.filter(x => x > 5)] and [five.filter(x => x < 0)] being
    rejected, and [Some(8)] being kept. *)
Lemma filter_contract_witness :
  call above_five (VNum 5) s1
  = (Ok false, mkState 0 2 [mkInvocation 4 [VNum 5]])
  /\ Option_filter five above_five s1
     = (Ok None, mkState 0 2 [mkInvocation 4 [VNum 5]])
  /\ call above_five (VNum 8) s1
     = (Ok true, mkState 0 2 [mkInvocation 4 [VNum 8]])
  /\ Option_filter (SomeObj 1 (VNum 8)) above_five s1
     = (Ok (SomeObj 1 (VNum 8)), mkState 0 2 [mkInvocation 4 [VNum 8]]).
Proof.
  split; [reflexivity|]. split; [|split; [reflexivity|]].
  - apply (proj1 (proj2 (filter_contract 1 (VNum 5) above_five s1))).
    reflexivity.
  - apply (proj1 (filter_contract 1 (VNum 8) above_five s1)).
    reflexivity.
Defined.

(** C7 at [fromValue(5)], [fromNullable(5)] and [fromUndefinable(5)]. *)
Lemma conversion_sentinels_witness :
  defined (VNum 5)
  /\ fromValue (VNum 5) s0 = (Ok five, s1)
  /\ fromNullable (VNum 5) s0 = (Ok five, s1)
  /\ fromUndefinable (VNum 5) s0 = (Ok five, s1).
Proof.
  assert (D : defined (VNum 5)) by (split; discriminate).
  pose proof (conversion_sentinels (W := nat) (VNum 5) s0)
    as (_ & HV & _ & HN & _ & _ & HU & _).
  split; [exact D|]. split; [exact (HV D)|].
  split; [apply HN | apply HU]; discriminate.
Defined.

(** C8 at [createOptionFactory(x => x < 0)] applied to [-1] and to [5]. *)
Lemma factory_refines_fromValueConditional_witness :
  exists factory,
    createOptionFactory negative s0 = (Ok factory, s0)
    /\ factory (VNum (-1)) s0
       = (Ok None, mkState 0 1 [mkInvocation 3 [VNum (-1)]])
    /\ factory (VNum 5) s0
       = (Ok five, mkState 0 2 [mkInvocation 3 [VNum 5]]).
Proof.
  destruct (factory_refines_fromValueConditional negative (VNum (-1)) s0)
    as (factory & Hf & Heq & _ & Habsent & _).
  exists factory. split; [exact Hf|]. split.
  - apply Habsent. reflexivity.
  - rewrite Heq. reflexivity.
Defined.

(** C2: the claim fails at [Some(null)], at [fromNullable(undefined)], at
    [fromUndefinable(null)], at [Some(5).map(_ => null)], at
    [fromValueConditional(null, x => x < 0)] and at
    [createOptionFactory(x => x < 0)(null)]: each is a present instance,
    and what it holds is [null] or [undefined]. *)
Lemma present_payload_null_counterexample :
  Some VNull s0 = (Ok (SomeObj 1 VNull), s1)
  /\ fromNullable VUndefined s0 = (Ok (SomeObj 1 VUndefined), s1)
  /\ fromUndefinable VNull s0 = (Ok (SomeObj 1 VNull), s1)
  /\ fst (wrap_then_null s0) = Ok (SomeObj 2 VNull)
  /\ fst (fromValueConditional VNull negative s0) = Ok (SomeObj 1 VNull)
  /\ fst (factory_on_null s0) = Ok (SomeObj 1 VNull)
  /\ Option_isSome (SomeObj 1 VNull) = true
  /\ Option_isSome (SomeObj 1 VUndefined) = true
  /\ Option_isSome (SomeObj 2 VNull) = true
  /\ ~ payload_defined (SomeObj 1 VNull)
  /\ ~ payload_defined (SomeObj 1 VUndefined)
  /\ ~ payload_defined (SomeObj 2 VNull).
Proof.
  repeat match goal with |- _ /\ _ => split end; try reflexivity;
    intros [N U]; congruence.
Qed.

(** C2 as amended, at [fromValue(5)], [Some(5).map(_ => null)] and
    [createOptionFactory(x => x < 0)(null)]. *)
Lemma payload_of_present_instances_witness :
  fromValue (VNum 5) s0 = (Ok five, s1)
  /\ payload_defined five
  /\ call to_null (VNum 5) s1
     = (Ok VNull, mkState 0 2 [mkInvocation 2 [VNum 5]])
  /\ Option_map five to_null s1
     = (Ok (SomeObj 2 VNull), mkState 0 3 [mkInvocation 2 [VNum 5]])
  /\ call negative VNull s0
     = (Ok false, mkState 0 1 [mkInvocation 3 [VNull]])
  /\ exists factory,
       createOptionFactory negative s0 = (Ok factory, s0)
       /\ factory VNull s0
          = (Ok (SomeObj 1 VNull), mkState 0 2 [mkInvocation 3 [VNull]]).
Proof.
  pose proof (payload_of_present_instances 1 (VNum 5) VNull to_null
                negative s0) as (HV & _).
  pose proof (payload_of_present_instances 1 (VNum 5) VNull to_null
                negative s1) as (_ & _ & _ & _ & HM & _).
  pose proof (payload_of_present_instances 1 VNull VNull to_null
                negative s0) as (_ & _ & _ & _ & _ & _ & HF & _).
  split; [reflexivity|]. split; [apply (HV five s1); reflexivity|].
  split; [reflexivity|].
  split; [apply (HM VNull (mkState 0 2 [mkInvocation 2 [VNum 5]]));
          reflexivity|].
  split; [reflexivity|].
  eexists. split; [reflexivity|].
  apply (HF _ s0 (mkState 0 1 [mkInvocation 3 [VNull]])); reflexivity.
Defined.

(** C9 at [five.map(_ => { throw "boom" })] and at a throwing predicate. *)
Lemma core_never_raises_witness :
  Option_map five boom s1
  = (Throw (VStr "boom"), mkState 0 2 [mkInvocation 6 [VNum 5]])
  /\ fault_of_fn boom (VStr "boom") (mkState 0 2 [mkInvocation 6 [VNum 5]])
  /\ Option_filter five boom_pred s1
     = (Throw (VStr "pred"), mkState 0 2 [mkInvocation 10 [VNum 5]]).
Proof.
  pose proof (core_never_raises (U := Value) five 1 None (VNum 5) VNull
                VNull double double counting_ten counting_ten counting_ten
                boom to_None counting_Some_ten boom_pred)
    as (_ & (_ & _ & _ & _ & Hmap & _) & Hprop).
  destruct (Hprop s1 (VStr "boom") (mkState 0 2 [mkInvocation 6 [VNum 5]]))
    as (_ & _ & _ & _ & _ & _ & Hm & _).
  destruct (Hprop s1 (VStr "pred") (mkState 0 2 [mkInvocation 10 [VNum 5]]))
    as (_ & _ & _ & _ & _ & _ & _ & _ & _ & Hf & _).
  split; [apply Hm; reflexivity|].
  split; [|apply Hf; reflexivity].
  apply (Hmap s1). apply Hm. reflexivity.
Defined.

(** C10 at [five.filter(x => x > 5)], [fromValueConditional(-1, x => x < 0)],
    [fromValue(null)], [five.and(None)] and [None.orElse(() => None)]. *)
Lemma absent_results_are_None_witness :
  Option_filter five above_five s1
  = (Ok None, mkState 0 2 [mkInvocation 4 [VNum 5]])
  /\ fromValueConditional (VNum (-1)) negative s0
     = (Ok None, mkState 0 1 [mkInvocation 3 [VNum (-1)]])
  /\ (forall r s',
        fromValue VNull s0 = (Ok r, s') -> Option_isNone r = true ->
        r = None /\ same_object r None = true)
  /\ module_object five
  /\ thunk_returns_module_objects none_thunk
  /\ (exists r1 r2 sa sb,
        Option_and five None s1 = (Ok r1, sa)
        /\ Option_orElse None none_thunk s1 = (Ok r2, sb)
        /\ Option_isNone r1 = true /\ Option_isNone r2 = true
        /\ r1 = r2 /\ same_object r1 r2 = true).
Proof.
  assert (Mh : thunk_returns_module_objects none_thunk).
  { intros s r s' H. injection H as <- _. reflexivity. }
  pose proof (absent_results_are_None five 1 (VNum 5) None double to_None
                above_five negative s1) as (_ & Hfilter & _).
  pose proof (absent_results_are_None five 1 (VNum (-1)) None double to_None
                above_five negative s0) as (_ & _ & (_ & _ & _ & _ & Hc & _) & _).
  pose proof (absent_results_are_None five 1 VNull None double to_None
                above_five negative s0) as (_ & _ & _ & Hid & _ & Hpair).
  split; [apply Hfilter; reflexivity|].
  split; [apply Hc; reflexivity|].
  split; [intros r s' H; apply (Hid r s'); right; right; left; exact H|].
  split; [exact I|]. split; [exact Mh|].
  exists None, None, s1, (mkState 0 2 [mkInvocation 12 []]).
  split; [reflexivity|]. split; [reflexivity|].
  split; [reflexivity|]. split; [reflexivity|].
  assert (P1 : public_result (W := nat) None)
    by exact (result_and None five None s1 s1 I eq_refl eq_refl).
  assert (P2 : public_result (W := nat) None)
    by exact (result_orElse None None none_thunk s1
                (mkState 0 2 [mkInvocation 12 []]) eq_refl Mh eq_refl).
  destruct (Hpair None None P1 P2 eq_refl eq_refl) as (_ & _ & E & S).
  split; [exact E | exact S].
Defined.

(** * The laws at concrete consumer code *)

Example legacy_load :
  Legacy._none (Legacy.load_state 0) = (Ok Legacy.None, s0).
Proof. reflexivity. Qed.

Lemma double_pure : pure_fn double times_two.
Proof. intros x s. destruct x; reflexivity. Defined.

Lemma above_five_pure : pure_fn above_five is_above_five.
Proof. intros x s. destruct x; reflexivity. Defined.

Lemma negative_pure : pure_fn negative is_negative.
Proof. intros x s. destruct x; reflexivity. Defined.

Lemma pure_quiet {A : Type} (f : Fn nat A) (F : Value -> A) :
  pure_fn f F -> quiet_fn f.
Proof. intros H x s. rewrite H. reflexivity. Defined.

Lemma variant_flags_decide_witness :
  Option_isSome five = true
  /\ Option_getValueOrDefault five VNull s1 = (Ok (VNum 5), s1)
  /\ Option_isNone None = true
  /\ Option_getValueOrDefault None VNull s1 = (Ok VNull, s1).
Proof.
  destruct (variant_flags_decide (W := nat) five) as (_ & Hsome & _).
  destruct (variant_flags_decide (W := nat) None) as (_ & _ & Hnone).
  destruct (Hsome eq_refl) as (v & Hv & _ & Hget).
  destruct (Hnone eq_refl) as (_ & _ & Hdef).
  injection Hv as <-.
  split; [reflexivity|]. split; [apply Hget|].
  split; [reflexivity | apply Hdef].
Defined.

Lemma map_preserves_variant_witness :
  Option_map five double s1
  = (Ok (SomeObj 2 (VNum 10)), mkState 0 3 [mkInvocation 1 [VNum 5]])
  /\ Option_isSome (SomeObj 2 (VNum 10)) = Option_isSome five.
Proof.
  split; [reflexivity|].
  apply (map_preserves_variant five double s1 (SomeObj 2 (VNum 10))
           (mkState 0 3 [mkInvocation 1 [VNum 5]])).
  reflexivity.
Defined.

Lemma filter_returns_receiver_or_None_witness :
  Option_filter five above_five s1
  = (Ok None, mkState 0 2 [mkInvocation 4 [VNum 5]])
  /\ ((None = five /\ Option_isSome five = true) \/ None = None).
Proof.
  split; [reflexivity|].
  apply (filter_returns_receiver_or_None five above_five s1 None
           (mkState 0 2 [mkInvocation 4 [VNum 5]])).
  reflexivity.
Defined.

Lemma map_identity_witness :
  Option_isSome five = true
  /\ object_id five < next_id s1
  /\ exists r s', Option_map five (identity_fn 20) s1 = (Ok r, s')
       /\ same_content r five /\ same_object r five = false.
Proof.
  assert (L : object_id five < next_id s1) by (simpl; apply le_n).
  split; [reflexivity|]. split; [exact L|].
  destruct (map_identity five 20 s1) as (r & s' & E & C & _ & D).
  exists r, s'. split; [exact E|]. split; [exact C|].
  apply D; [reflexivity | exact L].
Defined.

Lemma map_composition_witness :
  pure_fn double times_two
  /\ exists r1 s1' r2 s2',
       map_map five double double s1 = (Ok r1, s1')
       /\ Option_map five (compose_fn 20 double double) s1 = (Ok r2, s2')
       /\ same_content r1 r2
       /\ held r1 = [VNum 20].
Proof.
  split; [exact double_pure|].
  destruct (map_composition five 20 double double times_two times_two s1
              double_pure double_pure)
    as (r1 & s1' & r2 & s2' & E1 & E2 & C & H & _).
  exists r1, s1', r2, s2'. repeat split; assumption.
Defined.

Lemma andThen_identities_witness :
  Option_isSome five = true
  /\ object_id five < next_id s1
  /\ exists r s', Option_andThen five (Some_fn 20) s1 = (Ok r, s')
       /\ same_content r five /\ same_object r five = false.
Proof.
  assert (L : object_id five < next_id s1) by (simpl; apply le_n).
  split; [reflexivity|]. split; [exact L|].
  destruct (andThen_identities five (VNum 5) 20 to_None s1)
    as (_ & r & s' & E & C & _ & D).
  exists r, s'. split; [exact E|]. split; [exact C|].
  apply D; [reflexivity | exact L].
Defined.

Lemma or_laws_witness :
  module_object five /\ Option_or five None s1 = (Ok five, s1).
Proof.
  split; [exact I|].
  apply (proj1 (proj2 (proj2 (or_laws five None None s1)))). exact I.
Defined.

Lemma and_laws_witness :
  module_object five /\ Option_and five five s1 = (Ok five, s1).
Proof.
  split; [exact I|].
  apply (proj1 (proj2 (proj2 (proj2 (and_laws five None None s1))))).
  exact I.
Defined.

Lemma and_or_absorption_witness :
  module_object None
  /\ bind (Option_and None five) (fun r => Option_or None r) s1
     = (Ok None, s1)
  /\ bind (Option_or None five) (fun r => Option_and None r) s1
     = (Ok None, s1).
Proof.
  split; [reflexivity|].
  apply (and_or_absorption None five s1). reflexivity.
Defined.

Lemma filter_chain_witness :
  call negative (VNum 5) s1
  = (Ok false, mkState 0 2 [mkInvocation 3 [VNum 5]])
  /\ filter_filter five negative above_five s1
     = (Ok None, mkState 0 2 [mkInvocation 3 [VNum 5]])
  /\ pure_fn above_five is_above_five
  /\ fst (filter_filter (SomeObj 1 (VNum 8)) above_five above_five s1)
     = fst (Option_filter (SomeObj 1 (VNum 8)) above_five s1).
Proof.
  split; [reflexivity|]. split.
  - apply (proj1 (filter_chain 1 (VNum 5) 20 negative above_five
                    is_negative is_above_five s1)).
    reflexivity.
  - split; [exact above_five_pure|].
    apply (proj2 (proj2 (proj2
             (filter_chain 1 (VNum 8) 20 above_five above_five
                is_above_five is_above_five s1)))).
    exact above_five_pure.
Defined.

Lemma invocations_per_call_witness :
  quiet_fn double /\ quiet_fn above_five
  /\ calls (snd (Option_map five double s1)) = [mkInvocation 1 [VNum 5]]
  /\ calls (snd (Option_getValueOrCompute five ten s1)) = [].
Proof.
  assert (Qd : quiet_fn double) by exact (pure_quiet _ _ double_pure).
  assert (Qa : quiet_fn above_five) by exact (pure_quiet _ _ above_five_pure).
  assert (Qg : quiet_fn to_None) by (intros x s; reflexivity).
  assert (Qt : quiet_thunk ten) by (intros s; reflexivity).
  assert (Qh : quiet_thunk none_thunk) by (intros s; reflexivity).
  pose proof (invocations_per_call (U := Value) five (VNum 5) double ten
                double to_None ten none_thunk above_five VNull s1
                Qd Qt Qd Qg Qt Qh Qa)
    as (_ & _ & _ & Hmap & _ & _ & Hget & _).
  split; [exact Qd|]. split; [exact Qa|].
  split; [exact Hmap | exact Hget].
Defined.

Lemma legacy_agrees_witness :
  module_object five
  /\ Legacy.Option_map five double s1 = Option_map five double s1
  /\ Legacy.Option_filter five above_five s1
     = Option_filter five above_five s1.
Proof.
  destruct (legacy_agrees (U := Value) five 7 double ten double above_five
              ten None VNull VNull s1) as (H & _).
  destruct (H I) as (_ & _ & _ & _ & _ & Hmap & _ & _ & Hfilter & _).
  split; [exact I|]. split; [exact Hmap | exact Hfilter].
Defined.

Lemma legacy_andThen_orElse_wrap_witness :
  Option_isSome five = true
  /\ Legacy.Option_andThen five ten s1
     = (Ok (SomeObj 2 (VNum 10)), mkState 0 3 [mkInvocation 11 []])
  /\ Option_isSome (SomeObj 2 (VNum 10)) = Option_isSome five.
Proof.
  destruct (legacy_andThen_orElse_wrap five 20 None ten s1)
    as (Hwrap & _ & Hvar & _).
  split; [reflexivity|]. split.
  - rewrite (Hwrap eq_refl). reflexivity.
  - apply (Hvar (SomeObj 2 (VNum 10))
             (mkState 0 3 [mkInvocation 11 []])).
    reflexivity.
Defined.

Lemma eager_is_lazy_on_constants_witness :
  Option_isNone None = true
  /\ Option_mapOrDefault None double (VNum 0) s1 = (Ok (VNum 0), s1)
  /\ Option_mapOrCompute None double (const_thunk 20 (VNum 0)) s1
     = (Ok (VNum 0), mkState 0 2 [mkInvocation 20 []])
  /\ Option_isSome five = true
  /\ Option_mapOrDefault five double (VNum 0) s1
     = (Ok (VNum 10), mkState 0 2 [mkInvocation 1 [VNum 5]])
  /\ Option_mapOrCompute five double (const_thunk 20 (VNum 0)) s1
     = (Ok (VNum 10), mkState 0 2 [mkInvocation 1 [VNum 5]]).
Proof.
  destruct (eager_is_lazy_on_constants None None VNull 20 (VNum 0) double s1)
    as (_ & _ & _ & _ & _ & _ & _ & Habsent & _).
  destruct (eager_is_lazy_on_constants five None VNull 20 (VNum 0) double s1)
    as (_ & _ & _ & _ & _ & _ & _ & _ & Hpresent).
  destruct (Habsent eq_refl) as (Hd & Hc).
  destruct (Hpresent eq_refl) as (v & Hv & Hd' & Hc').
  injection Hv as <-.
  split; [reflexivity|]. split; [exact Hd|]. split; [exact Hc|].
  split; [reflexivity|]. split.
  - rewrite Hd'. reflexivity.
  - rewrite Hc'. reflexivity.
Defined.
